(** * uniform_order: the order form of [app.py]

    A shallow embedding of the Streamlit script [src/app.py]: the digit
    normaliser, the drop-down helpers, the validation flags, the two
    entry handlers and the reset handler, together with the parts of the
    Python run time and of Streamlit the script relies on
    ([str.isdigit], [str.strip], [int], [st.selectbox]).

    Left out: the page set-up and style sheet, the parsing of the CSV
    files (the tables are taken as [pd.read_csv] returns them), and the
    contents of the table and CSV views of the review part. *)

From Stdlib Require Import NArith ZArith Lia List Bool Ascii String.
From Stdlib Require Import DecimalN DecimalZ DecimalPos.
From stdpp Require Import base option list gmap.
Import ListNotations.

(** ** Python strings

    A Python [str] is a sequence of Unicode code points; the script
    compares characters by code point (["０" <= ch <= "９"]) and handles
    Japanese text, so a character is its code point and a string the list
    of them. *)

Definition char : Type := N.
Definition str : Type := list char.

Definition str_eqb (a b : str) : bool := bool_decide (a = b).

(** ASCII text of the script, written with [string] literals. *)
Fixpoint ascii_str (s : String.string) : str :=
  match s with
  | String.EmptyString => []
  | String.String a s' => Ascii.N_of_ascii a :: ascii_str s'
  end.

(** ** Unicode character classes (Unicode 14.0, as in CPython 3.11)

    Inclusive code point ranges. *)

Definition in_range (c : char) (r : N * N) : bool :=
  ((fst r <=? c) && (c <=? snd r))%N.

Definition in_ranges (rs : list (N * N)) (c : char) : bool :=
  existsb (in_range c) rs.

(** Characters with Numeric_Type=Decimal (general category Nd): the
    characters [str.isdecimal] accepts and [int] reads as digits.  Every
    range is a run of decimal digits 0..9 in order (the last but four is
    five such runs, the mathematical digits). *)
Definition decimal_ranges : list (N * N) :=
  [ (0x30, 0x39); (0x660, 0x669); (0x6f0, 0x6f9); (0x7c0, 0x7c9);
    (0x966, 0x96f); (0x9e6, 0x9ef); (0xa66, 0xa6f); (0xae6, 0xaef);
    (0xb66, 0xb6f); (0xbe6, 0xbef); (0xc66, 0xc6f); (0xce6, 0xcef);
    (0xd66, 0xd6f); (0xde6, 0xdef); (0xe50, 0xe59); (0xed0, 0xed9);
    (0xf20, 0xf29); (0x1040, 0x1049); (0x1090, 0x1099); (0x17e0, 0x17e9);
    (0x1810, 0x1819); (0x1946, 0x194f); (0x19d0, 0x19d9); (0x1a80, 0x1a89);
    (0x1a90, 0x1a99); (0x1b50, 0x1b59); (0x1bb0, 0x1bb9); (0x1c40, 0x1c49);
    (0x1c50, 0x1c59); (0xa620, 0xa629); (0xa8d0, 0xa8d9); (0xa900, 0xa909);
    (0xa9d0, 0xa9d9); (0xa9f0, 0xa9f9); (0xaa50, 0xaa59); (0xabf0, 0xabf9);
    (0xff10, 0xff19); (0x104a0, 0x104a9); (0x10d30, 0x10d39);
    (0x11066, 0x1106f); (0x110f0, 0x110f9); (0x11136, 0x1113f);
    (0x111d0, 0x111d9); (0x112f0, 0x112f9); (0x11450, 0x11459);
    (0x114d0, 0x114d9); (0x11650, 0x11659); (0x116c0, 0x116c9);
    (0x11730, 0x11739); (0x118e0, 0x118e9); (0x11950, 0x11959);
    (0x11c50, 0x11c59); (0x11d50, 0x11d59); (0x11da0, 0x11da9);
    (0x16a60, 0x16a69); (0x16ac0, 0x16ac9); (0x16b50, 0x16b59);
    (0x1d7ce, 0x1d7ff); (0x1e140, 0x1e149); (0x1e2f0, 0x1e2f9);
    (0x1e950, 0x1e959); (0x1fbf0, 0x1fbf9) ]%N.

(** Characters with Numeric_Type=Digit that are not decimal: superscripts,
    subscripts, circled and parenthesised digits and the like.
    [str.isdigit] accepts them, [int] does not. *)
Definition digit_only_ranges : list (N * N) :=
  [ (0xb2, 0xb3); (0xb9, 0xb9); (0x1369, 0x1371); (0x19da, 0x19da);
    (0x2070, 0x2070); (0x2074, 0x2079); (0x2080, 0x2089); (0x2460, 0x2468);
    (0x2474, 0x247c); (0x2488, 0x2490); (0x24ea, 0x24ea); (0x24f5, 0x24fd);
    (0x24ff, 0x24ff); (0x2776, 0x277e); (0x2780, 0x2788); (0x278a, 0x2792);
    (0x10a40, 0x10a43); (0x10e60, 0x10e68); (0x11052, 0x1105a);
    (0x1f100, 0x1f10a) ]%N.

(** Characters [str.isspace] accepts. *)
Definition space_ranges : list (N * N) :=
  [ (0x9, 0xd); (0x1c, 0x20); (0x85, 0x85); (0xa0, 0xa0); (0x1680, 0x1680);
    (0x2000, 0x200a); (0x2028, 0x2029); (0x202f, 0x202f); (0x205f, 0x205f);
    (0x3000, 0x3000) ]%N.

Definition isdecimal_char (c : char) : bool := in_ranges decimal_ranges c.
Definition isdigit_char (c : char) : bool :=
  isdecimal_char c || in_ranges digit_only_ranges c.
Definition isspace_char (c : char) : bool := in_ranges space_ranges c.

(** The decimal value of a character of category Nd. *)
Definition decimal_value (c : char) : option N :=
  match find (in_range c) decimal_ranges with
  | Some r => Some ((c - fst r) mod 10)%N
  | None => None
  end.

(** [s.isdigit()]: every character is a digit and there is at least one. *)
Definition str_isdigit (s : str) : bool :=
  match s with
  | [] => false
  | _ => forallb isdigit_char s
  end.

(** [s.strip()]: leading and trailing white space removed. *)
Fixpoint lstrip (s : str) : str :=
  match s with
  | [] => []
  | c :: s' => if isspace_char c then lstrip s' else s
  end.

Definition rstrip (s : str) : str := rev (lstrip (rev s)).

Definition str_strip (s : str) : str := rstrip (lstrip s).

(** ** Exceptions

    [ValueError] is what [int] raises; [DataframeError] stands for the
    exception that comes out of [st.dataframe] when the table cannot be
    converted for display. *)

Inductive exn : Type :=
| ValueError
| DataframeError.

Inductive result (A : Type) : Type :=
| Ok (a : A)
| Raise (e : exn).
Arguments Ok {A} a.
Arguments Raise {A} e.

Definition bind {A B : Type} (r : result A) (k : A -> result B) : result B :=
  match r with
  | Ok a => k a
  | Raise e => Raise e
  end.

Notation "'let*' x ':=' r 'in' k" := (bind r (fun x => k))
  (at level 10, x name, r at level 100, k at level 200).

(** ** [int(s)]

    CPython first maps every non-ASCII white space character to a blank
    and every non-ASCII decimal digit to its ASCII digit (anything else
    non-ASCII becomes an invalid character), and then reads, in base 10:
    ASCII white space, an optional sign, digits with single underscores
    between them, ASCII white space.  More than [int_max_str_digits]
    digits are refused.  Every failure is a [ValueError]. *)

Definition int_max_str_digits : nat := 4300.

Definition to_ascii_decimal_and_space (c : char) : char :=
  if (c <? 128)%N then c
  else if isspace_char c then 32%N
  else match decimal_value c with
       | Some d => (48 + d)%N
       | None => 63%N
       end.

Definition is_ascii_space (c : char) : bool :=
  in_range c (9, 13)%N || (c =? 32)%N.

Definition is_ascii_digit (c : char) : bool := in_range c (48, 57)%N.

Fixpoint skip_ascii_space (s : str) : str :=
  match s with
  | [] => []
  | c :: s' => if is_ascii_space c then skip_ascii_space s' else s
  end.

(** The digits of a digit string with underscores; [prev] tells whether
    the previous character was a digit. *)
Fixpoint read_digits (prev : bool) (s : str) : option (list N) :=
  match s with
  | [] => if prev then Some [] else None
  | c :: s' =>
      if is_ascii_digit c then
        match read_digits true s' with
        | Some ds => Some ((c - 48)%N :: ds)
        | None => None
        end
      else if (c =? 95)%N then
        if prev then read_digits false s' else None
      else None
  end.

Definition digits_value (ds : list N) : Z :=
  fold_left (fun acc d => (10 * acc + Z.of_N d)%Z) ds 0%Z.

(** An optional sign: ['-'] is 45 and ['+'] is 43. *)
Definition read_sign (t : str) : bool * str :=
  match t with
  | c :: b =>
      if (c =? 45)%N then (true, b)
      else if (c =? 43)%N then (false, b)
      else (false, t)
  | [] => (false, t)
  end.

Definition py_int (s : str) : result Z :=
  let t := map to_ascii_decimal_and_space s in
  let t := rev (skip_ascii_space (rev (skip_ascii_space t))) in
  let '(neg, body) := read_sign t in
  match read_digits false body with
  | None => Raise ValueError
  | Some ds =>
      if (int_max_str_digits <? length ds)%nat then Raise ValueError
      else Ok (if neg then (- digits_value ds)%Z else digits_value ds)
  end.

(** ** [normalize_digits] (app.py, lines 62-67) *)

(** [unicodedata.normalize("NFKC", ch)] for a full-width digit [ch]
    (U+FF10..U+FF19): the compatibility decomposition of FULLWIDTH DIGIT d
    is the one-character string DIGIT d. *)
Definition nfkc_fullwidth_digit (ch : char) : str := [(ch - 0xFEE0)%N].

Definition is_fullwidth_digit (ch : char) : bool :=
  ((0xFF10 <=? ch) && (ch <=? 0xFF19))%N.

Definition normalize_digits (s : str) : str :=
  concat (map (fun ch => if is_fullwidth_digit ch
                         then nfkc_fullwidth_digit ch else [ch]) s).


(** ** Master data

    The five tables [load_master_data] returns, as [pd.read_csv] makes
    them; a data frame is the list of its rows, a column its projection.
    A cell holds a value, or the NaN pandas puts where the CSV cell is
    empty (or reads like "NA"): a name is text or NaN, an identifier an
    integer or NaN.  Python's [==] on cells is [cell_eqb]: NaN equals
    nothing, itself included. *)

Inductive cell (A : Type) : Type :=
| Val (a : A)
| NaN.
Arguments Val {A} a.
Arguments NaN {A}.

#[global] Instance cell_eq_dec {A : Type} `{EqDecision A} :
  EqDecision (cell A).
Proof. solve_decision. Defined.

Definition cell_eqb {A : Type} (eqb : A -> A -> bool) (a b : cell A)
  : bool :=
  match a, b with
  | Val x, Val y => eqb x y
  | _, _ => false
  end.

Definition name : Type := cell str.
Definition ident : Type := cell Z.

Definition name_eqb (a b : name) : bool := cell_eqb str_eqb a b.
Definition ident_eqb (a b : ident) : bool := cell_eqb Z.eqb a b.

Module Applicant.
Record row : Type := { ap_id : ident; ap_name : name }.
End Applicant.

Module Location.
Record row : Type := { location_id : ident; location_name : name }.
End Location.

Module Pattern.
Record row : Type := { pattern_id : ident; pattern_name : name }.
End Pattern.

Module Uniform.
Record row : Type :=
  { uniform_id : ident; uniform_name : name; pattern_id : ident }.
End Uniform.

Module Size.
Record row : Type :=
  { size_id : ident; size_name : name; uniform_id : ident }.
End Size.

(** The tables, and how their missing values are held: [missing_shared]
    tells whether the NaN of the name cells is one and the same Python
    object in every run (the float [np.nan] itself, as pandas' string
    columns give it out) or a new float in every copy of the tables that
    [st.cache_data] hands to a run (as with object columns). *)
Record master : Type :=
  { applicants : list Applicant.row;
    locations : list Location.row;
    patterns : list Pattern.row;
    sizes : list Size.row;
    uniforms : list Uniform.row;
    missing_shared : bool }.

(** ["--- 選択 ---"] *)
Definition placeholder : str :=
  [0x2d; 0x2d; 0x2d; 0x20; 0x9078; 0x629e; 0x20; 0x2d; 0x2d; 0x2d]%N.

(** [create_dropdown_options] (lines 69-80) *)
Definition create_dropdown_options {R I : Type} (df : list R)
    (id_col : R -> I) (name_col : R -> name) (include_blank : bool)
  : list name :=
  match df with
  | [] => if include_blank then [Val placeholder] else []
  | _ =>
      let options := map (fun r => (id_col r, name_col r)) df in
      let names := map snd options in
      if include_blank then Val placeholder :: names else names
  end.

(** [get_selected_id] (lines 82-90); [None] is Python's [None]. *)
Definition get_selected_id {R I : Type} (df : list R)
    (id_col : R -> I) (name_col : R -> name) (selected_name : option name)
  : option I :=
  match selected_name with
  | None => None
  | Some selected =>
      if name_eqb selected (Val placeholder) then None
      else
        let matching_rows :=
          List.filter (fun r => name_eqb (name_col r) selected) df in
        match matching_rows with
        | r :: _ => Some (id_col r)
        | [] => None
        end
  end.

(** ** Session state (lines 92-103) *)

Module Entry.
Record t : Type :=
  { applicant_id : option ident; applicant : name;
    location_id : option ident; location : name;
    pattern_id : option ident; pattern : name;
    uniform_id : option ident; uniform : name;
    size_id : option ident; size : name;
    quantity : Z; user_name : str }.
End Entry.

Record session_state : Type :=
  { entries : list Entry.t;
    show_success : bool;
    reset_trigger : N;
    current_applicant : option name }.

Definition initial_session : session_state :=
  {| entries := []; show_success := false; reset_trigger := 0%N;
     current_applicant := None |}.

(** ** Streamlit widgets

    Streamlit keeps, between two runs of the script, the value the user
    chose in each widget; a widget that a run does not create loses its
    value at the end of that run.  A select box that is given a key is
    known by that key: it returns the stored choice as long as this is
    still one of its options, and the option at the default index
    otherwise.  (Older releases also forget the choice when the label,
    the options or the index of the call change; nothing below depends
    on that.)  The script always passes a list that starts with the
    placeholder and an index within it. *)

Definition selectbox (ws : gmap str name) (label : str)
    (options : list name) (index : nat) (key : str) : name :=
  match ws !! key with
  | Some v => if bool_decide (v ∈ options) then v
              else nth index options (Val [])
  | None => nth index options (Val [])
  end.

(** [str(n)] for a non-negative integer, used by the f-string keys. *)
Fixpoint uint_str (d : Decimal.uint) : str :=
  match d with
  | Decimal.Nil => []
  | Decimal.D0 d => 48%N :: uint_str d
  | Decimal.D1 d => 49%N :: uint_str d
  | Decimal.D2 d => 50%N :: uint_str d
  | Decimal.D3 d => 51%N :: uint_str d
  | Decimal.D4 d => 52%N :: uint_str d
  | Decimal.D5 d => 53%N :: uint_str d
  | Decimal.D6 d => 54%N :: uint_str d
  | Decimal.D7 d => 55%N :: uint_str d
  | Decimal.D8 d => 56%N :: uint_str d
  | Decimal.D9 d => 57%N :: uint_str d
  end.

Definition py_str (n : N) : str := uint_str (N.to_uint n).

(** [f"<prefix>{st.session_state.reset_trigger}"] *)
Definition widget_key (prefix : String.string) (ss : session_state) : str :=
  ascii_str prefix ++ py_str (reset_trigger ss).

(** The truth value of a string (non-empty) and of a cell (NaN is a
    float other than zero, so it is true). *)
Definition truthy (s : str) : bool := negb (str_eqb s []).

Definition truthy_name (a : name) : bool :=
  match a with
  | Val s => truthy s
  | NaN => true
  end.

(** [y is x or y == x], the comparison [in] and [list.index] make
    between an element [y] of a list of options and a name [x] kept from
    an earlier run: two texts are compared by [==]; a NaN equals nothing,
    so two NaN count as the same only when they are the same object. *)
Definition name_same (shared : bool) (y x : name) : bool :=
  match y, x with
  | NaN, NaN => shared
  | _, _ => name_eqb y x
  end.

(** [x in l] *)
Definition name_in (shared : bool) (x : name) (l : list name) : bool :=
  existsb (fun y => name_same shared y x) l.

(** [l.index(x)], the position of the first element that is or equals
    [x]. *)
Fixpoint list_index (shared : bool) (x : name) (l : list name)
  : option nat :=
  match l with
  | [] => None
  | y :: l' => if name_same shared y x then Some 0%nat
               else option_map S (list_index shared x l')
  end.

(** The labels ["申請者"], ["施設"], ["制服パターン"], ["制服"],
    ["サイズ"]. *)
Definition label_applicant : str := [0x7533; 0x8acb; 0x8005]%N.
Definition label_location : str := [0x65bd; 0x8a2d]%N.
Definition label_pattern : str :=
  [0x5236; 0x670d; 0x30d1; 0x30bf; 0x30fc; 0x30f3]%N.
Definition label_uniform : str := [0x5236; 0x670d]%N.
Definition label_size : str := [0x30b5; 0x30a4; 0x30ba]%N.

(** ** Validation (lines 162-174) *)

(** [normalize_digits(quantity_input) if quantity_input else ""] *)
Definition quantity_normalized (quantity_input : str) : str :=
  match quantity_input with
  | [] => []
  | _ => normalize_digits quantity_input
  end.

(** [quantity_normalized.isdigit() and quantity_normalized != ""] *)
Definition is_quantity_valid (quantity_input : str) : bool :=
  str_isdigit (quantity_normalized quantity_input)
  && negb (str_eqb (quantity_normalized quantity_input) []).

Definition all_fields_filled
    (selected_applicant selected_location selected_pattern
     selected_uniform selected_size : name)
    (quantity_input user_name_input : str)
  : bool :=
  negb (name_eqb selected_applicant (Val placeholder))
  && negb (name_eqb selected_location (Val placeholder))
  && negb (name_eqb selected_pattern (Val placeholder))
  && negb (name_eqb selected_uniform (Val placeholder))
  && negb (name_eqb selected_size (Val placeholder))
  && is_quantity_valid quantity_input
  && negb (str_eqb (str_strip user_name_input) []).

(** ** The tables of entries (lines 247, 271, 310, 319)

    [st.dataframe] shows the entries as a table.  It raises once an entry
    holds a quantity of 2^64 or more: the column then no longer fits the
    64-bit integers of pandas and its conversion for display fails. *)

Definition st_dataframe (rows : list Entry.t) : result unit :=
  if existsb (fun e => (2 ^ 64 <=? Entry.quantity e)%Z) rows
  then Raise DataframeError
  else Ok tt.

(** The guard of the review part (line 247). *)
Definition review_displayed (ss : session_state) : bool :=
  show_success ss && negb (bool_decide (entries ss = [])).

(** The guard of the table of the entries so far (line 310). *)
Definition current_entries_displayed (ss : session_state) : bool :=
  negb (bool_decide (entries ss = [])) && negb (show_success ss).

(** The inputs of a run that are not select boxes: the two text fields
    and the three buttons ([True] in the run a click starts). *)
Record inputs : Type :=
  { quantity_input : str;
    user_name_input : str;
    add_entry : bool;
    finish_entry : bool;
    reset_button : bool }.

(** How a run ends: in [st.rerun()] on a new session state, or at the
    end of the script. *)
Inductive outcome : Type :=
| Rerun (ss' : session_state)
| Done (ss' : session_state).

(** ** The form (lines 112-160)

    One run of the script reads the five select boxes in order; the
    options of the uniform box depend on the pattern just read and those
    of the size box on the uniform just read. *)

Section Form.
Variable m : master.
Variable ss : session_state.
Variable ws : gmap str name.

Definition applicant_options : list name :=
  create_dropdown_options (applicants m)
    Applicant.ap_id Applicant.ap_name true.

Definition default_applicant_index : nat :=
  match current_applicant ss with
  | Some a =>
      if truthy_name a && name_in (missing_shared m) a applicant_options
      then default 0%nat
             (list_index (missing_shared m) a applicant_options)
      else 0%nat
  | None => 0%nat
  end.

Definition selected_applicant : name :=
  selectbox ws label_applicant applicant_options
    default_applicant_index (widget_key "applicant_" ss).

Definition location_options : list name :=
  create_dropdown_options (locations m)
    Location.location_id Location.location_name true.

Definition selected_location : name :=
  selectbox ws label_location location_options 0
    (widget_key "location_" ss).

Definition pattern_options : list name :=
  create_dropdown_options (patterns m)
    Pattern.pattern_id Pattern.pattern_name true.

Definition selected_pattern : name :=
  selectbox ws label_pattern pattern_options 0
    (widget_key "pattern_" ss).

Definition selected_pattern_id : option ident :=
  get_selected_id (patterns m) Pattern.pattern_id Pattern.pattern_name
    (Some selected_pattern).

Definition uniform_filtered : list Uniform.row :=
  match selected_pattern_id with
  | Some pid =>
      List.filter (fun r => ident_eqb (Uniform.pattern_id r) pid)
        (uniforms m)
  | None => []
  end.

Definition uniform_options : list name :=
  create_dropdown_options uniform_filtered
    Uniform.uniform_id Uniform.uniform_name true.

Definition selected_uniform : name :=
  selectbox ws label_uniform uniform_options 0
    (widget_key "uniform_" ss).

Definition selected_uniform_id : option ident :=
  get_selected_id uniform_filtered Uniform.uniform_id
    Uniform.uniform_name (Some selected_uniform).

Definition size_filtered : list Size.row :=
  match selected_uniform_id with
  | Some uid =>
      List.filter (fun r => ident_eqb (Size.uniform_id r) uid) (sizes m)
  | None => []
  end.

Definition size_options : list name :=
  create_dropdown_options size_filtered
    Size.size_id Size.size_name true.

Definition selected_size : name :=
  selectbox ws label_size size_options 0 (widget_key "size_" ss).

(** The keys of the select boxes this run creates. *)
Definition applicant_widget : str := widget_key "applicant_" ss.
Definition location_widget : str := widget_key "location_" ss.
Definition pattern_widget : str := widget_key "pattern_" ss.
Definition uniform_widget : str := widget_key "uniform_" ss.
Definition size_widget : str := widget_key "size_" ss.

Definition active_widgets : list str :=
  [applicant_widget; location_widget; pattern_widget; uniform_widget;
   size_widget].

(** The widget values Streamlit keeps when the run is over. *)
Definition end_of_run : gmap str name :=
  filter (fun kv => kv.1 ∈ active_widgets) ws.

Variable inp : inputs.

Definition form_filled : bool :=
  all_fields_filled selected_applicant selected_location selected_pattern
    selected_uniform selected_size (quantity_input inp)
    (user_name_input inp).

(** The entry of lines 194-207, and again of lines 219-232. *)
Definition make_entry : result Entry.t :=
  let* q := py_int (quantity_normalized (quantity_input inp)) in
  Ok {| Entry.applicant_id :=
          get_selected_id (applicants m) Applicant.ap_id
            Applicant.ap_name (Some selected_applicant);
        Entry.applicant := selected_applicant;
        Entry.location_id :=
          get_selected_id (locations m) Location.location_id
            Location.location_name (Some selected_location);
        Entry.location := selected_location;
        Entry.pattern_id :=
          get_selected_id (patterns m) Pattern.pattern_id
            Pattern.pattern_name (Some selected_pattern);
        Entry.pattern := selected_pattern;
        Entry.uniform_id :=
          get_selected_id uniform_filtered Uniform.uniform_id
            Uniform.uniform_name (Some selected_uniform);
        Entry.uniform := selected_uniform;
        Entry.size_id :=
          get_selected_id size_filtered Size.size_id Size.size_name
            (Some selected_size);
        Entry.size := selected_size;
        Entry.quantity := q;
        Entry.user_name := str_strip (user_name_input inp) |}.

(** ** The handlers and the display (lines 191-319)

    A handler ends in [st.rerun()]: the run stops there and the script
    starts again on the new session state.  An exception leaves the
    session state as it was. *)

(** [if add_entry and all_fields_filled:] *)
Definition add_entry_handler : result outcome :=
  let* entry := make_entry in
  Ok (Rerun {| entries := entries ss ++ [entry];
               show_success := show_success ss;
               current_applicant := Some selected_applicant;
               reset_trigger := (reset_trigger ss + 1)%N |}).

(** [if finish_entry and all_fields_filled:] *)
Definition finish_entry_handler : result outcome :=
  let* entry := make_entry in
  Ok (Rerun {| entries := entries ss ++ [entry];
               show_success := true;
               current_applicant := None;
               reset_trigger := (reset_trigger ss + 1)%N |}).

Definition reset_handler : outcome :=
  Rerun {| entries := [];
           show_success := false;
           current_applicant := None;
           reset_trigger := (reset_trigger ss + 1)%N |}.

(** The review part (lines 247-307): the table, then the download
    button and the text view, then the reset button.  [Some o] when the
    reset button ends the run. *)
Definition review_part : result (option outcome) :=
  if review_displayed ss then
    let* _ := st_dataframe (entries ss) in
    if reset_button inp then Ok (Some reset_handler) else Ok None
  else Ok None.

(** The table of the entries so far (lines 310-319). *)
Definition current_entries_part : result unit :=
  if current_entries_displayed ss then st_dataframe (entries ss)
  else Ok tt.

Definition script : result outcome :=
  if add_entry inp && form_filled then add_entry_handler
  else if finish_entry inp && form_filled then finish_entry_handler
  else
    let* r := review_part in
    match r with
    | Some o => Ok o
    | None => let* _ := current_entries_part in Ok (Done ss)
    end.

End Form.

(** * Statements

    Properties named by the theorems below. *)

(** Valid exactly when the normalised quantity is non-empty and made of
    ASCII digits only. *)
Definition valid_iff_ascii_digits (q : str) : Prop :=
  is_quantity_valid q = true <->
  quantity_normalized q <> [] /\
  Forall (fun c => (48 <= c <= 57)%N) (quantity_normalized q).

(** Python's [==] on names, as a proposition: both are the same text. *)
Definition name_eq (a b : name) : Prop :=
  exists s, a = Val s /\ b = Val s.

(** The two phases of a session: the form is being filled, or the
    request has been sent and is under review. *)
Inductive phase : Type := COLLECTING | REVIEWING.

Definition phase_of (ss : session_state) : phase :=
  if show_success ss then REVIEWING else COLLECTING.

Definition outcome_state (o : outcome) : session_state :=
  match o with
  | Rerun ss' => ss'
  | Done ss' => ss'
  end.

(** The session states the script reaches from the initial one, whatever
    the widgets hold and whatever the user types and clicks.  A run that
    raises leaves the state where it was. *)
Inductive reachable (m : master) : session_state -> Prop :=
| reachable_initial : reachable m initial_session
| reachable_run (ss : session_state) (ws : gmap str name)
    (inp : inputs) (o : outcome) :
    reachable m ss -> script m ss ws inp = Ok o ->
    reachable m (outcome_state o).




(** The widget values once the run on [ws] is over and the user has then
    chosen [v] in the select box of key [w]. *)
Definition user_selects (ss : session_state) (ws : gmap str name)
    (w : str) (v : name) : gmap str name :=
  <[w := v]> (end_of_run ss ws).

(** The uniform, and the size, a run shows agree with their parents. *)
Definition selection_consistent (m : master) (ss : session_state)
    (ws : gmap str name) : Prop :=
  (selected_uniform m ss ws = Val placeholder \/
   exists u, u ∈ uniforms m /\
             Uniform.uniform_name u = selected_uniform m ss ws /\
             selected_pattern_id m ss ws = Some (Uniform.pattern_id u)) /\
  (selected_size m ss ws = Val placeholder \/
   exists s, s ∈ sizes m /\
             Size.size_name s = selected_size m ss ws /\
             selected_uniform_id m ss ws = Some (Size.uniform_id s)).

(** A change of the pattern puts uniform and size back on the
    placeholder in the next run. *)
Definition pattern_change_resets (m : master) (ss : session_state)
    (ws : gmap str name) (v : name) : Prop :=
  let ws' := user_selects ss ws (pattern_widget ss) v in
  selected_pattern m ss ws' <> selected_pattern m ss ws ->
  selected_uniform m ss ws' = Val placeholder /\
  selected_size m ss ws' = Val placeholder.

(** ** Sample data

    Three patterns; Summer and Winter each have a uniform named Shirt
    with a size named M, Work has a uniform named Coverall with a size
    named L and a size whose name cell is empty. *)

Definition text (s : String.string) : name := Val (ascii_str s).

Definition sample_master : master :=
  {| applicants :=
       [ {| Applicant.ap_id := Val 1;
            Applicant.ap_name := text "Tanaka" |} ];
     locations :=
       [ {| Location.location_id := Val 1;
            Location.location_name := text "HQ" |} ];
     patterns :=
       [ {| Pattern.pattern_id := Val 1;
            Pattern.pattern_name := text "Summer" |};
         {| Pattern.pattern_id := Val 2;
            Pattern.pattern_name := text "Winter" |};
         {| Pattern.pattern_id := Val 3;
            Pattern.pattern_name := text "Work" |} ];
     sizes :=
       [ {| Size.size_id := Val 100; Size.size_name := text "M";
            Size.uniform_id := Val 10 |};
         {| Size.size_id := Val 200; Size.size_name := text "M";
            Size.uniform_id := Val 20 |};
         {| Size.size_id := Val 300; Size.size_name := text "L";
            Size.uniform_id := Val 30 |};
         {| Size.size_id := Val 301; Size.size_name := NaN;
            Size.uniform_id := Val 30 |} ];
     uniforms :=
       [ {| Uniform.uniform_id := Val 10;
            Uniform.uniform_name := text "Shirt";
            Uniform.pattern_id := Val 1 |};
         {| Uniform.uniform_id := Val 20;
            Uniform.uniform_name := text "Shirt";
            Uniform.pattern_id := Val 2 |};
         {| Uniform.uniform_id := Val 30;
            Uniform.uniform_name := text "Coverall";
            Uniform.pattern_id := Val 3 |} ];
     missing_shared := false |}%Z.

(** In the session state [ss] the user picks, one run after the other,
    the applicant, the location, a pattern, a uniform and a size. *)
Definition sample_choice (ss : session_state)
    (pattern uniform size : name) : gmap str name :=
  let ws := user_selects ss ∅ (applicant_widget ss) (text "Tanaka") in
  let ws := user_selects ss ws (location_widget ss) (text "HQ") in
  let ws := user_selects ss ws (pattern_widget ss) pattern in
  let ws := user_selects ss ws (uniform_widget ss) uniform in
  user_selects ss ws (size_widget ss) size.

(** Summer, Shirt, M. *)
Definition sample_selection (ss : session_state) : gmap str name :=
  sample_choice ss (text "Summer") (text "Shirt") (text "M").

Definition sample_widgets : gmap str name :=
  sample_selection initial_session.

(** Work, Coverall, and the size without a name. *)
Definition sample_widgets_nameless_size : gmap str name :=
  sample_choice initial_session (text "Work") (text "Coverall") NaN.

Definition click_add (quantity user_name : str) : inputs :=
  {| quantity_input := quantity; user_name_input := user_name;
     add_entry := true; finish_entry := false; reset_button := false |}.

Definition click_finish (quantity user_name : str) : inputs :=
  {| quantity_input := quantity; user_name_input := user_name;
     add_entry := false; finish_entry := true; reset_button := false |}.

Definition click_reset : inputs :=
  {| quantity_input := []; user_name_input := [];
     add_entry := false; finish_entry := false; reset_button := true |}.

Definition no_click : inputs :=
  {| quantity_input := []; user_name_input := [];
     add_entry := false; finish_entry := false; reset_button := false |}.

(** The session after one run on the sample data, or the session as it
    was when the run raises. *)
Definition sample_run (ss : session_state) (inp : inputs) : session_state :=
  match script sample_master ss (sample_selection ss) inp with
  | Ok o => outcome_state o
  | Raise _ => ss
  end.

(** The quantity ["0"] is entered and "add" clicked. *)
Definition sample_added_zero : session_state :=
  Eval vm_compute in
    sample_run initial_session
      (click_add (ascii_str "0") (ascii_str "Suzuki")).

(** The quantity ["２"] is entered and "finish" clicked. *)
Definition sample_finished : session_state :=
  Eval vm_compute in
    sample_run initial_session
      (click_finish [0xFF12%N] (ascii_str "Suzuki")).

(** The size without a name is chosen, the quantity ["1"] entered and
    "add" clicked. *)
Definition sample_added_nameless_size : session_state :=
  Eval vm_compute in
    match script sample_master initial_session
            sample_widgets_nameless_size
            (click_add (ascii_str "1") (ascii_str "Suzuki")) with
    | Ok o => outcome_state o
    | Raise _ => initial_session
    end.

(** 2^64, in digits, is entered and "finish" clicked. *)
Definition sample_finished_huge : session_state :=
  Eval vm_compute in
    sample_run initial_session
      (click_finish (ascii_str "18446744073709551616")
         (ascii_str "Suzuki")).

(** * The rest of the script *)

(** ** Warnings (lines 176-180)

    At most one warning is shown: about the quantity when something was
    typed that the digit check refuses, else about missing fields when
    the form is incomplete and the applicant, the location, the quantity
    or the user name has been touched. *)

Inductive warning : Type :=
| quantity_warning
| incomplete_warning.

Definition warning_message
    (selected_applicant selected_location selected_pattern
     selected_uniform selected_size : name)
    (quantity_input user_name_input : str)
  : option warning :=
  if truthy quantity_input && negb (is_quantity_valid quantity_input)
  then Some quantity_warning
  else if negb (all_fields_filled selected_applicant selected_location
                  selected_pattern selected_uniform selected_size
                  quantity_input user_name_input)
          && existsb (fun b : bool => b)
               [ negb (name_eqb selected_applicant (Val placeholder));
                 negb (name_eqb selected_location (Val placeholder));
                 truthy quantity_input;
                 truthy user_name_input ]
  then Some incomplete_warning
  else None.

(** ** The text view of the review (lines 288-299) *)

(** [str(z)] for an integer. *)
Definition py_str_int (z : Z) : str :=
  match Z.to_int z with
  | Decimal.Pos d => uint_str d
  | Decimal.Neg d => 45%N :: uint_str d
  end.

(** A name as an f-string prints it: the text, or ["nan"]. *)
Definition name_text (a : name) : str :=
  match a with
  | Val s => s
  | NaN => ascii_str "nan"
  end.

(** The column labels ["起票"], ["施設"], ["制服パターン"], ["制服名"],
    ["サイズ"], ["個数"], ["使用者名"] of [rename_map]. *)
Definition col_applicant : str := [0x8d77; 0x7968]%N.
Definition col_location : str := [0x65bd; 0x8a2d]%N.
Definition col_pattern : str :=
  [0x5236; 0x670d; 0x30d1; 0x30bf; 0x30fc; 0x30f3]%N.
Definition col_uniform : str := [0x5236; 0x670d; 0x540d]%N.
Definition col_size : str := [0x30b5; 0x30a4; 0x30ba]%N.
Definition col_quantity : str := [0x500b; 0x6570]%N.
Definition col_user_name : str := [0x4f7f; 0x7528; 0x8005; 0x540d]%N.

(** The line of the row with index [i] (from 0) of the data frame. *)
Definition text_line (i : nat) (row : Entry.t) : str :=
  ascii_str "[" ++ py_str_int (Z.of_nat i + 1) ++ ascii_str "] "
  ++ col_applicant ++ ascii_str ":" ++ name_text (Entry.applicant row)
  ++ ascii_str " / "
  ++ col_location ++ ascii_str ":" ++ name_text (Entry.location row)
  ++ ascii_str " / "
  ++ col_pattern ++ ascii_str ":" ++ name_text (Entry.pattern row)
  ++ ascii_str " / "
  ++ col_uniform ++ ascii_str ":" ++ name_text (Entry.uniform row)
  ++ ascii_str " / "
  ++ col_size ++ ascii_str ":" ++ name_text (Entry.size row)
  ++ ascii_str " / "
  ++ col_quantity ++ ascii_str ":" ++ py_str_int (Entry.quantity row)
  ++ ascii_str " / "
  ++ col_user_name ++ ascii_str ":" ++ Entry.user_name row.

Definition text_output (rows : list Entry.t) : list str :=
  imap text_line rows.

(** [sep.join(l)] *)
Fixpoint str_join (sep : str) (l : list str) : str :=
  match l with
  | [] => []
  | [s] => s
  | s :: l' => s ++ sep ++ str_join sep l'
  end.

(** The value of the text area: ["\n".join(text_output)]. *)
Definition text_area_value (rows : list Entry.t) : str :=
  str_join [10%N] (text_output rows).

(** ** Further statements *)

(** A name and the identifier stored beside it in an entry: the name is
    the name cell of a row of the table and is not the placeholder; when
    it is text the identifier is that of a row of that name, when it is
    NaN there is no identifier. *)
Definition resolved {R : Type} (df : list R) (id_col : R -> ident)
    (name_col : R -> name) (a : name) (id : option ident) : Prop :=
  a <> Val placeholder /\
  (exists r, r ∈ df /\ name_col r = a) /\
  match a with
  | Val _ => exists r, r ∈ df /\ name_col r = a /\ id = Some (id_col r)
  | NaN => id = None
  end.

Definition entry_resolved (m : master) (e : Entry.t) : Prop :=
  resolved (applicants m) Applicant.ap_id Applicant.ap_name
    (Entry.applicant e) (Entry.applicant_id e) /\
  resolved (locations m) Location.location_id Location.location_name
    (Entry.location e) (Entry.location_id e) /\
  resolved (patterns m) Pattern.pattern_id Pattern.pattern_name
    (Entry.pattern e) (Entry.pattern_id e) /\
  resolved (uniforms m) Uniform.uniform_id Uniform.uniform_name
    (Entry.uniform e) (Entry.uniform_id e) /\
  resolved (sizes m) Size.size_id Size.size_name
    (Entry.size e) (Entry.size_id e).

(** A string that [strip] leaves alone and that is not empty. *)
Definition trimmed_nonempty (s : str) : Prop :=
  (exists c s', s = c :: s' /\ isspace_char c = false) /\
  (exists s' c, s = s' ++ [c] /\ isspace_char c = false).

(** Every quantity is below 2^64: the tables can be shown. *)
Definition quantities_fit (rows : list Entry.t) : Prop :=
  Forall (fun e => (Entry.quantity e < 2 ^ 64)%Z) rows.

(** * Properties *)

(** ** Strings and character classes *)

Lemma str_eqb_eq (a b : str) : str_eqb a b = true <-> a = b.
Proof. unfold str_eqb. apply bool_decide_eq_true. Qed.

Lemma str_eqb_neq (a b : str) : negb (str_eqb a b) = true <-> a <> b.
Proof.
  unfold str_eqb. rewrite negb_true_iff. apply bool_decide_eq_false.
Qed.

Lemma in_range_spec (c lo hi : N) :
  in_range c (lo, hi) = true <-> (lo <= c <= hi)%N.
Proof.
  unfold in_range; simpl.
  rewrite andb_true_iff, !N.leb_le. tauto.
Qed.

Lemma in_ranges_cons (c : char) (r : N * N) (rs : list (N * N)) :
  in_ranges (r :: rs) c = in_range c r || in_ranges rs c.
Proof. reflexivity. Qed.

(** No range that starts at [b] or above holds a character below [b]. *)
Lemma in_ranges_above (rs : list (N * N)) (c b : N) :
  forallb (fun r => (b <=? fst r)%N) rs = true ->
  (c < b)%N -> in_ranges rs c = false.
Proof.
  intros Hrs Hc. induction rs as [|r rs IH]; [reflexivity |].
  simpl in Hrs. apply andb_true_iff in Hrs as [Hr Hrs].
  rewrite in_ranges_cons, (IH Hrs), orb_false_r.
  unfold in_range. apply N.leb_le in Hr.
  apply andb_false_iff; left. apply N.leb_gt. lia.
Qed.

(** Below 128 the digits of [str.isdigit] are the ASCII digits. *)
Lemma isdigit_char_ascii (c : char) :
  (c < 128)%N -> (isdigit_char c = true <-> (48 <= c <= 57)%N).
Proof.
  intros Hc.
  unfold isdigit_char, isdecimal_char, decimal_ranges.
  rewrite in_ranges_cons.
  rewrite (in_ranges_above _ c 128%N), orb_false_r by (vm_compute; auto).
  rewrite (in_ranges_above digit_only_ranges c 128%N), orb_false_r
    by (vm_compute; auto).
  apply in_range_spec.
Qed.

Lemma isdecimal_char_ascii_digit (c : char) :
  (48 <= c <= 57)%N -> isdecimal_char c = true.
Proof.
  intros H. unfold isdecimal_char, decimal_ranges.
  rewrite in_ranges_cons. apply orb_true_iff; left.
  apply in_range_spec; exact H.
Qed.

Lemma isdecimal_isdigit (c : char) :
  isdecimal_char c = true -> isdigit_char c = true.
Proof. unfold isdigit_char. intros ->. reflexivity. Qed.

Lemma str_isdigit_spec (s : str) :
  str_isdigit s = true <->
  s <> [] /\ Forall (fun c => isdigit_char c = true) s.
Proof.
  destruct s as [|c s].
  - simpl. split; [discriminate | intros [H _]; congruence].
  - unfold str_isdigit. rewrite forallb_forall, Forall_forall.
    setoid_rewrite list_elem_of_In.
    split; [intros H; split; [discriminate | exact H] | intros [_ H]; exact H].
Qed.

(** ** [normalize_digits] *)

Lemma normalize_digits_cons (ch : char) (s : str) :
  normalize_digits (ch :: s) =
  (if is_fullwidth_digit ch then (ch - 0xFEE0)%N else ch)
    :: normalize_digits s.
Proof.
  unfold normalize_digits, nfkc_fullwidth_digit. simpl.
  destruct (is_fullwidth_digit ch); reflexivity.
Qed.

Lemma is_fullwidth_digit_spec (ch : char) :
  is_fullwidth_digit ch = true <-> (0xFF10 <= ch <= 0xFF19)%N.
Proof.
  unfold is_fullwidth_digit. rewrite andb_true_iff, !N.leb_le. tauto.
Qed.

Lemma fullwidth_digit_cases (ch : char) :
  (0xFF10 <= ch <= 0xFF19)%N ->
  In ch [0xFF10; 0xFF11; 0xFF12; 0xFF13; 0xFF14; 0xFF15; 0xFF16; 0xFF17;
         0xFF18; 0xFF19]%N.
Proof. simpl. lia. Qed.

(** A full-width digit and its half-width form have the same decimal
    value in the Unicode tables. *)
Lemma halfwidth_same_value (ch : char) :
  (0xFF10 <= ch <= 0xFF19)%N ->
  is_ascii_digit (ch - 0xFEE0)%N = true /\
  decimal_value (ch - 0xFEE0)%N = decimal_value ch /\
  decimal_value ch = Some (ch - 0xFF10)%N.
Proof.
  intros H. apply fullwidth_digit_cases in H. simpl in H.
  repeat (destruct H as [<- | H]; [vm_compute; auto |]).
  contradiction.
Qed.

(** C9. For every input string, [normalize_digits] returns a string of
    the same length; at each position a full-width digit (U+FF10..U+FF19)
    has become the ASCII digit of the same decimal value, and any other
    character is unchanged.  The function is total: it is defined on
    every string and raises nothing. *)
Theorem C9_normalize_digits_lengthwise (s : str) :
  length (normalize_digits s) = length s /\
  forall (i : nat) (ch : char), s !! i = Some ch ->
    exists ch' : char,
      normalize_digits s !! i = Some ch' /\
      ((0xFF10 <= ch <= 0xFF19)%N ->
         (48 <= ch' <= 57)%N /\
         decimal_value ch' = decimal_value ch /\
         decimal_value ch = Some (ch - 0xFF10)%N) /\
      (~ (0xFF10 <= ch <= 0xFF19)%N -> ch' = ch).
Proof.
  induction s as [|c s [IHlen IH]].
  - split; [reflexivity | intros i ch H; destruct i; discriminate].
  - rewrite normalize_digits_cons. split.
    + simpl. congruence.
    + intros [|i] ch H; simpl in H.
      * injection H as ->. eexists; split; [reflexivity |].
        destruct (is_fullwidth_digit ch) eqn:E.
        -- apply is_fullwidth_digit_spec in E. split; [| tauto].
           intros _. destruct (halfwidth_same_value ch E) as (Ha & Hb & Hc).
           apply in_range_spec in Ha. auto.
        -- split; [| reflexivity].
           intros Hr. apply is_fullwidth_digit_spec in Hr. congruence.
      * simpl. apply IH. exact H.
Qed.

(** The first character of ["１２３"] becomes ['1']. *)
Lemma C9_normalize_digits_lengthwise_witness :
  exists ch' : char,
    normalize_digits [0xFF11; 0xFF12; 0xFF13]%N !! 0%nat = Some ch' /\
    ((0xFF10 <= 0xFF11 <= 0xFF19)%N ->
       (48 <= ch' <= 57)%N /\
       decimal_value ch' = decimal_value 0xFF11%N /\
       decimal_value 0xFF11%N = Some (0xFF11 - 0xFF10)%N) /\
    (~ (0xFF10 <= 0xFF11 <= 0xFF19)%N -> ch' = 0xFF11%N).
Proof.
  apply (proj2 (C9_normalize_digits_lengthwise [0xFF11; 0xFF12; 0xFF13]%N)
           0%nat 0xFF11%N).
  reflexivity.
Defined.

Example normalize_digits_123 :
  normalize_digits [0xFF11; 0xFF12; 0xFF13]%N = ascii_str "123".
Proof. reflexivity. Qed.

Example normalize_digits_mixed :
  normalize_digits ([0xFF15] ++ ascii_str "ab" ++ [0x663])%N
  = (ascii_str "5ab" ++ [0x663])%N.
Proof. reflexivity. Qed.

(** ** [is_quantity_valid] *)

Lemma is_quantity_valid_spec (q : str) :
  is_quantity_valid q = true <->
  quantity_normalized q <> [] /\
  Forall (fun c => isdigit_char c = true) (quantity_normalized q).
Proof.
  unfold is_quantity_valid.
  rewrite andb_true_iff, str_isdigit_spec, str_eqb_neq. tauto.
Qed.

(** C1 fails as stated: ARABIC-INDIC DIGIT THREE (U+0663) is not an ASCII
    digit and is not touched by the normalisation, and the quantity made
    of it is valid. *)
Lemma C1_arabic_indic_digit_is_valid :
  ~ valid_iff_ascii_digits [0x663%N].
Proof.
  unfold valid_iff_ascii_digits. intros [H _].
  assert (Hv : is_quantity_valid [0x663%N] = true) by reflexivity.
  destruct (H Hv) as [_ HF].
  apply Forall_cons_1 in HF as [HF _]. lia.
Qed.

(** C1, amended.  A quantity is valid whenever its normalised form is
    non-empty and made of Unicode decimal digits (the ASCII digits among
    them, leading zeros allowed); it is invalid whenever the normalised
    form is empty or holds a character that is not a Unicode digit; and
    for a normalised form within ASCII it is valid exactly when that form
    is non-empty and made of the digits '0'..'9'. *)
Theorem C1_quantity_valid (q : str) :
  (quantity_normalized q <> [] /\
   Forall (fun c => isdecimal_char c = true) (quantity_normalized q) ->
   is_quantity_valid q = true) /\
  (is_quantity_valid q = true ->
   quantity_normalized q <> [] /\
   Forall (fun c => isdigit_char c = true) (quantity_normalized q)) /\
  (Forall (fun c => (c < 128)%N) (quantity_normalized q) ->
   valid_iff_ascii_digits q).
Proof.
  split; [| split].
  - intros [Hne HF]. apply is_quantity_valid_spec. split; [exact Hne |].
    eapply Forall_impl; [exact HF |]. intros c. apply isdecimal_isdigit.
  - apply is_quantity_valid_spec.
  - intros Hascii. unfold valid_iff_ascii_digits.
    rewrite is_quantity_valid_spec.
    split; intros [Hne HF]; (split; [exact Hne |]);
      rewrite Forall_forall in *; intros c Hc;
      apply (isdigit_char_ascii c (Hascii c Hc)); auto.
Qed.

(** The quantity ["５"] is valid. *)
Lemma C1_quantity_valid_witness : is_quantity_valid [0xFF15%N] = true.
Proof.
  apply (proj1 (C1_quantity_valid [0xFF15%N])).
  split; [discriminate | repeat constructor].
Defined.

(** ** [strip] *)

Lemma lstrip_nil_iff (s : str) :
  lstrip s = [] <-> Forall (fun c => isspace_char c = true) s.
Proof.
  induction s as [|c s IH]; simpl.
  - split; [constructor | reflexivity].
  - destruct (isspace_char c) eqn:E.
    + rewrite IH. split; [intros H; constructor; assumption |].
      intros H. apply Forall_cons_1 in H. tauto.
    + split; [discriminate |].
      intros H. apply Forall_cons_1 in H as [H _]. congruence.
Qed.

Lemma lstrip_Forall (P : char -> Prop) (s : str) :
  Forall P s -> Forall P (lstrip s).
Proof.
  induction 1 as [|c s Hc Hs IH]; simpl; [constructor |].
  destruct (isspace_char c); [exact IH | constructor; assumption].
Qed.

Lemma lstrip_space_inv (s : str) :
  Forall (fun c => isspace_char c = true) (lstrip s) ->
  Forall (fun c => isspace_char c = true) s.
Proof.
  induction s as [|c s IH]; simpl; [auto |].
  destruct (isspace_char c) eqn:E; [| auto].
  intros H. constructor; auto.
Qed.

(** What is left of a string after [strip] is empty exactly when the
    string is made of white space. *)
Lemma str_strip_nil_iff (s : str) :
  str_strip s = [] <-> Forall (fun c => isspace_char c = true) s.
Proof.
  unfold str_strip, rstrip. split.
  - intros H. apply (f_equal (@rev char)) in H.
    rewrite rev_involutive in H. simpl in H.
    apply lstrip_nil_iff in H. apply Forall_rev in H.
    rewrite rev_involutive in H. apply lstrip_space_inv. exact H.
  - intros H.
    assert (H' : lstrip (rev (lstrip s)) = []).
    { apply lstrip_nil_iff. apply Forall_rev.
      apply lstrip_Forall. exact H. }
    rewrite H'. reflexivity.
Qed.

Lemma str_strip_nonempty_iff (s : str) :
  str_strip s <> [] <-> exists c, c ∈ s /\ isspace_char c = false.
Proof.
  rewrite str_strip_nil_iff. split.
  - intros H. apply not_Forall_Exists in H; [| intros c; apply _].
    apply Exists_exists in H as (c & Hc & Hn).
    exists c. split; [exact Hc |]. apply not_true_is_false. exact Hn.
  - intros (c & Hc & Hn) H. rewrite Forall_forall in H.
    specialize (H c Hc). congruence.
Qed.

(** ** Names *)

Lemma name_eqb_eq (a b : name) : name_eqb a b = true <-> name_eq a b.
Proof.
  unfold name_eqb, name_eq. destruct a as [s|], b as [t|]; simpl.
  - rewrite str_eqb_eq. split.
    + intros ->. eauto.
    + intros (u & [= ->] & [= ->]). reflexivity.
  - split; [discriminate | intros (u & _ & H); discriminate].
  - split; [discriminate | intros (u & H & _); discriminate].
  - split; [discriminate | intros (u & H & _); discriminate].
Qed.

Lemma name_eqb_val (a : name) (s : str) :
  name_eqb a (Val s) = true <-> a = Val s.
Proof.
  rewrite name_eqb_eq. unfold name_eq. split.
  - intros (u & -> & [= ->]). reflexivity.
  - intros ->. eauto.
Qed.

Lemma name_neqb_val (a : name) (s : str) :
  negb (name_eqb a (Val s)) = true <-> a <> Val s.
Proof.
  rewrite negb_true_iff, <- not_true_iff_false, name_eqb_val. tauto.
Qed.

Lemma name_eq_refl_val (s : str) : name_eq (Val s) (Val s).
Proof. exists s. auto. Qed.

Lemma name_eq_eq (a b : name) : name_eq a b -> a = b.
Proof. intros (s & -> & ->). reflexivity. Qed.

Lemma name_eq_nan (a : name) : ~ name_eq a NaN.
Proof. intros (s & _ & H). discriminate. Qed.

(** ** [all_fields_filled] *)

Lemma all_fields_filled_spec
    (selected_applicant selected_location selected_pattern
     selected_uniform selected_size : name)
    (quantity_input user_name_input : str) :
  all_fields_filled selected_applicant selected_location selected_pattern
    selected_uniform selected_size quantity_input user_name_input = true
  <->
  selected_applicant <> Val placeholder /\
  selected_location <> Val placeholder /\
  selected_pattern <> Val placeholder /\
  selected_uniform <> Val placeholder /\
  selected_size <> Val placeholder /\
  is_quantity_valid quantity_input = true /\
  str_strip user_name_input <> [].
Proof.
  unfold all_fields_filled.
  rewrite !andb_true_iff, !name_neqb_val, str_eqb_neq. tauto.
Qed.

(** C6. [all_fields_filled] is true if and only if each of the five
    selections differs from the placeholder, the quantity passes the
    digit check, and the user name with surrounding white space removed
    is non-empty (that is, holds a character that is not white space). *)
Theorem C6_all_fields_filled_iff
    (selected_applicant selected_location selected_pattern
     selected_uniform selected_size : name)
    (quantity_input user_name_input : str) :
  (all_fields_filled selected_applicant selected_location selected_pattern
     selected_uniform selected_size quantity_input user_name_input = true
   <->
   selected_applicant <> Val placeholder /\
   selected_location <> Val placeholder /\
   selected_pattern <> Val placeholder /\
   selected_uniform <> Val placeholder /\
   selected_size <> Val placeholder /\
   is_quantity_valid quantity_input = true /\
   str_strip user_name_input <> [])
  /\
  (str_strip user_name_input <> [] <->
   exists c, c ∈ user_name_input /\ isspace_char c = false).
Proof.
  split; [apply all_fields_filled_spec | apply str_strip_nonempty_iff].
Qed.

Example all_fields_filled_fullwidth_five :
  all_fields_filled (text "Tanaka") (text "HQ") (text "Summer")
    (text "Shirt") (text "M") [0xFF15%N] (ascii_str " Suzuki ") = true.
Proof. reflexivity. Qed.

Example all_fields_filled_letters_in_quantity :
  all_fields_filled (text "Tanaka") (text "HQ") (text "Summer")
    (text "Shirt") (text "M") (ascii_str "ab12") (ascii_str "Suzuki")
  = false.
Proof. reflexivity. Qed.

Example all_fields_filled_blank_user_name :
  all_fields_filled (text "Tanaka") (text "HQ") (text "Summer")
    (text "Shirt") (text "M") (ascii_str "3") [0x20; 0x3000]%N = false.
Proof. reflexivity. Qed.

(** A name cell that is empty in the CSV counts as a selection. *)
Example all_fields_filled_nameless_size :
  all_fields_filled (text "Tanaka") (text "HQ") (text "Work")
    (text "Coverall") NaN (ascii_str "3") (ascii_str "Suzuki") = true.
Proof. reflexivity. Qed.

(** ** [get_selected_id] *)

(** The first row a filter keeps splits the table. *)
Lemma filter_first {R : Type} (p : R -> bool) (df : list R) :
  match List.filter p df with
  | [] => forall r, r ∈ df -> p r = false
  | r :: _ =>
      exists l1 l2, df = l1 ++ r :: l2 /\ p r = true /\
                    forall r', r' ∈ l1 -> p r' = false
  end.
Proof.
  induction df as [|a df IH]; simpl.
  - intros r Hr. apply elem_of_nil in Hr. contradiction.
  - destruct (p a) eqn:E.
    + exists [], df. split; [reflexivity |]. split; [exact E |].
      intros r' Hr'. apply elem_of_nil in Hr'. contradiction.
    + destruct (List.filter p df) as [|r rest].
      * intros r Hr. apply elem_of_cons in Hr as [-> | Hr]; auto.
      * destruct IH as (l1 & l2 & -> & Hp & Hl1).
        exists (a :: l1), l2. split; [reflexivity |]. split; [exact Hp |].
        intros r' Hr'. apply elem_of_cons in Hr' as [-> | Hr']; auto.
Qed.

(** A split at the first row that passes the test determines the head of
    the filtered table. *)
Lemma filter_first_unique {R : Type} (p : R -> bool) (l1 l2 : list R)
    (r : R) :
  p r = true -> (forall r', r' ∈ l1 -> p r' = false) ->
  exists rest, List.filter p (l1 ++ r :: l2) = r :: rest.
Proof.
  intros Hr Hl1. induction l1 as [|a l1 IH]; simpl.
  - rewrite Hr. eauto.
  - rewrite (Hl1 a) by apply list_elem_of_here.
    apply IH. intros r' Hr'. apply Hl1. apply list_elem_of_further, Hr'.
Qed.

Lemma get_selected_id_spec {R I : Type} (df : list R)
    (id_col : R -> I) (name_col : R -> name)
    (selected_name : option name) :
  (get_selected_id df id_col name_col selected_name = None <->
   selected_name = Some (Val placeholder) \/ selected_name = None \/
   exists selected, selected_name = Some selected /\
                    forall r, r ∈ df -> ~ name_eq (name_col r) selected)
  /\
  (forall i : I,
     get_selected_id df id_col name_col selected_name = Some i <->
     exists selected l1 r l2,
       selected_name = Some selected /\ selected <> Val placeholder /\
       df = l1 ++ r :: l2 /\ name_eq (name_col r) selected /\
       id_col r = i /\
       forall r', r' ∈ l1 -> ~ name_eq (name_col r') selected).
Proof.
  destruct selected_name as [selected|]; simpl.
  2:{ split; [tauto |]. intros i. split; [discriminate |].
      intros (n & _ & _ & _ & H & _). discriminate. }
  destruct (name_eqb selected (Val placeholder)) eqn:Eph.
  { apply name_eqb_val in Eph. subst selected.
    split; [tauto |]. intros i. split; [discriminate |].
    intros (n & _ & _ & _ & H & Hn & _). congruence. }
  assert (Hph : selected <> Val placeholder).
  { apply name_neqb_val. rewrite Eph. reflexivity. }
  pose proof (filter_first
                (fun r => name_eqb (name_col r) selected) df) as HF.
  destruct (List.filter _ df) as [|r rest] eqn:Efil.
  - split.
    + split; [intros _ | reflexivity]. right; right. exists selected.
      split; [reflexivity |]. intros r Hr Heq.
      specialize (HF r Hr). apply name_eqb_eq in Heq. congruence.
    + intros i. split; [discriminate |].
      intros (n & l1 & r & l2 & Hn & _ & Hdf & Hr & _ & _).
      injection Hn as <-. specialize (HF r).
      rewrite Hdf in HF. apply name_eqb_eq in Hr.
      rewrite HF in Hr; [discriminate |].
      apply elem_of_app. right. apply list_elem_of_here.
  - destruct HF as (l1 & l2 & Hdf & Hr & Hl1). apply name_eqb_eq in Hr.
    assert (Hl1' : forall r', r' ∈ l1 -> ~ name_eq (name_col r') selected).
    { intros r' Hr' Heq. apply name_eqb_eq in Heq.
      rewrite (Hl1 r' Hr') in Heq. discriminate. }
    split.
    + split; [discriminate |].
      intros [H | [H | (n & Hn & Hno)]]; try congruence.
      injection Hn as <-. exfalso. apply (Hno r); [| exact Hr].
      rewrite Hdf. apply elem_of_app. right. apply list_elem_of_here.
    + intros i. split.
      * intros [= <-]. exists selected, l1, r, l2. auto 10.
      * intros (n & k1 & r0 & k2 & Hn & _ & Hdf' & Hr0 & Hi & Hk1).
        injection Hn as <-.
        destruct (filter_first_unique
                    (fun r => name_eqb (name_col r) selected) k1 k2 r0)
          as (rest' & Hrest).
        { apply name_eqb_eq. exact Hr0. }
        { intros r' Hr'. specialize (Hk1 r' Hr').
          destruct (name_eqb (name_col r') selected) eqn:E;
            [| reflexivity].
          apply name_eqb_eq in E. contradiction. }
        rewrite <- Hdf', Efil in Hrest. injection Hrest as -> _.
        congruence.
Qed.

(** C8. [get_selected_id] returns the identifier of the first row, in
    table order, whose name equals the display name; it returns [None]
    exactly when the display name is the placeholder, is [None], or
    matches no row.  (Equality is Python's [==]: the NaN of an empty
    name cell matches no row and no row matches it.) *)
Theorem C8_get_selected_id_first_match {R I : Type} (df : list R)
    (id_col : R -> I) (name_col : R -> name)
    (selected_name : option name) :
  (get_selected_id df id_col name_col selected_name = None <->
   selected_name = Some (Val placeholder) \/ selected_name = None \/
   exists selected, selected_name = Some selected /\
                    forall r, r ∈ df -> ~ name_eq (name_col r) selected)
  /\
  (forall i : I,
     get_selected_id df id_col name_col selected_name = Some i <->
     exists selected l1 r l2,
       selected_name = Some selected /\ selected <> Val placeholder /\
       df = l1 ++ r :: l2 /\ name_eq (name_col r) selected /\
       id_col r = i /\
       forall r', r' ∈ l1 -> ~ name_eq (name_col r') selected).
Proof. apply get_selected_id_spec. Qed.

Example get_selected_id_duplicate_names :
  get_selected_id (uniforms sample_master) Uniform.uniform_id
    Uniform.uniform_name (Some (text "Shirt")) = Some (Val 10%Z).
Proof. reflexivity. Qed.

Example get_selected_id_nameless :
  get_selected_id (sizes sample_master) Size.size_id Size.size_name
    (Some NaN) = None.
Proof. reflexivity. Qed.

Lemma get_selected_id_Some_elem {R I : Type} (df : list R)
    (id_col : R -> I) (name_col : R -> name) (selected : name) (i : I) :
  get_selected_id df id_col name_col (Some selected) = Some i ->
  selected <> Val placeholder /\
  exists r, r ∈ df /\ name_eq (name_col r) selected /\ id_col r = i.
Proof.
  intros H. apply get_selected_id_spec in H
    as (n & l1 & r & l2 & [= <-] & Hph & -> & Hn & Hi & _).
  split; [exact Hph |]. exists r. split; [| auto].
  apply elem_of_app. right. apply list_elem_of_here.
Qed.

Lemma get_selected_id_member {R I : Type} (df : list R)
    (id_col : R -> I) (name_col : R -> name) (selected : name) :
  selected <> Val placeholder ->
  (exists r, r ∈ df /\ name_eq (name_col r) selected) ->
  exists i, get_selected_id df id_col name_col (Some selected) = Some i.
Proof.
  intros Hph (r & Hr & Hn).
  destruct (get_selected_id df id_col name_col (Some selected))
    as [i|] eqn:E; [eauto |].
  apply get_selected_id_spec in E as [E | [E | (n & [= <-] & Hno)]];
    try congruence.
  exfalso. exact (Hno r Hr Hn).
Qed.

(** The NaN of an empty name cell resolves to nothing. *)
Lemma get_selected_id_nan {R I : Type} (df : list R)
    (id_col : R -> I) (name_col : R -> name) :
  get_selected_id df id_col name_col (Some NaN) = None.
Proof.
  apply get_selected_id_spec. right; right. exists NaN.
  split; [reflexivity |]. intros r _. apply name_eq_nan.
Qed.

(** ** Select boxes and their options *)

Lemma ident_eqb_eq (a b : ident) :
  ident_eqb a b = true <-> exists z, a = Val z /\ b = Val z.
Proof.
  unfold ident_eqb. destruct a as [x|], b as [y|]; simpl.
  - rewrite Z.eqb_eq. split.
    + intros ->. eauto.
    + intros (z & [= ->] & [= ->]). reflexivity.
  - split; [discriminate | intros (z & _ & H); discriminate].
  - split; [discriminate | intros (z & H & _); discriminate].
  - split; [discriminate | intros (z & H & _); discriminate].
Qed.

Lemma create_dropdown_options_blank {R I : Type} (df : list R)
    (id_col : R -> I) (name_col : R -> name) :
  create_dropdown_options df id_col name_col true
  = Val placeholder :: map name_col df.
Proof.
  destruct df as [|r df]; [reflexivity |].
  unfold create_dropdown_options. rewrite map_map. reflexivity.
Qed.

(** A select box returns one of its options. *)
Lemma selectbox_elem (ws : gmap str name) (label : str)
    (options : list name) (index : nat) (key : str) :
  (index < length options)%nat ->
  selectbox ws label options index key ∈ options.
Proof.
  intros Hi. unfold selectbox.
  assert (Hd : nth index options (Val []) ∈ options).
  { apply list_elem_of_In. apply nth_In. exact Hi. }
  destruct (ws !! key) as [v|]; [| exact Hd].
  destruct (bool_decide (v ∈ options)) eqn:E; [| exact Hd].
  apply bool_decide_eq_true in E. exact E.
Qed.

Lemma options_elem {R I : Type} (df : list R) (id_col : R -> I)
    (name_col : R -> name) (v : name) :
  v ∈ create_dropdown_options df id_col name_col true <->
  v = Val placeholder \/ exists r, r ∈ df /\ name_col r = v.
Proof.
  rewrite create_dropdown_options_blank, elem_of_cons.
  apply or_iff_compat_l. rewrite list_elem_of_In, in_map_iff.
  split; intros (r & H1 & H2); exists r.
  - split; [apply list_elem_of_In; exact H2 | exact H1].
  - split; [exact H2 | apply list_elem_of_In; exact H1].
Qed.

(** Over the options of a table, the choice is the placeholder or the
    name cell of a row. *)
Lemma selectbox_blank_or_row {R I : Type} (ws : gmap str name)
    (label key : str) (df : list R) (id_col : R -> I)
    (name_col : R -> name) :
  let v := selectbox ws label
             (create_dropdown_options df id_col name_col true) 0 key in
  v = Val placeholder \/ exists r, r ∈ df /\ name_col r = v.
Proof.
  intros v. apply (options_elem df id_col). apply selectbox_elem.
  rewrite create_dropdown_options_blank. simpl. lia.
Qed.

(** Nothing stored for a select box: it shows its first option. *)
Lemma selectbox_fresh {R I : Type} (ws : gmap str name)
    (label key : str) (df : list R) (id_col : R -> I)
    (name_col : R -> name) :
  ws !! key = None ->
  selectbox ws label (create_dropdown_options df id_col name_col true) 0 key
    = Val placeholder.
Proof.
  intros H. unfold selectbox. rewrite H.
  rewrite create_dropdown_options_blank. reflexivity.
Qed.

(** A choice that the new options no longer hold is dropped: the box is
    back on the placeholder. *)
Lemma selectbox_stale {R I R' I' : Type} (ws ws' : gmap str name)
    (label key : str) (df : list R) (id_col : R -> I)
    (name_col : R -> name) (df' : list R') (id_col' : R' -> I')
    (name_col' : R' -> name) :
  ws' !! key = ws !! key ->
  selectbox ws label (create_dropdown_options df id_col name_col true)
    0 key
    ∉ create_dropdown_options df' id_col' name_col' true ->
  selectbox ws' label (create_dropdown_options df' id_col' name_col' true)
    0 key = Val placeholder.
Proof.
  intros Hkey. unfold selectbox. rewrite Hkey.
  rewrite !create_dropdown_options_blank.
  destruct (ws !! key) as [x|]; [| reflexivity].
  destruct (decide (x ∈ Val placeholder :: map name_col' df'))
    as [Hin' | Hnin'].
  - rewrite (bool_decide_eq_true_2 _ Hin'). intros Hout.
    exfalso. apply Hout.
    destruct (decide (x ∈ Val placeholder :: map name_col df))
      as [Hin | Hnin].
    + rewrite (bool_decide_eq_true_2 _ Hin). exact Hin'.
    + rewrite (bool_decide_eq_false_2 _ Hnin). simpl.
      apply list_elem_of_here.
  - rewrite (bool_decide_eq_false_2 _ Hnin'). reflexivity.
Qed.

Lemma filter_elem {R : Type} (p : R -> bool) (df : list R) (r : R) :
  r ∈ List.filter p df <-> r ∈ df /\ p r = true.
Proof. rewrite !list_elem_of_In. apply filter_In. Qed.

Lemma uniform_filtered_elem (m : master) (ss : session_state)
    (ws : gmap str name) (u : Uniform.row) :
  u ∈ uniform_filtered m ss ws <->
  u ∈ uniforms m /\
  exists z, Uniform.pattern_id u = Val z /\
            selected_pattern_id m ss ws = Some (Val z).
Proof.
  unfold uniform_filtered.
  destruct (selected_pattern_id m ss ws) as [pid|].
  - rewrite filter_elem, ident_eqb_eq. split.
    + intros (Hu & z & Hz & ->). eauto.
    + intros (Hu & z & Hz & [= ->]). eauto.
  - rewrite elem_of_nil. split; [contradiction |].
    intros (_ & z & _ & H). discriminate.
Qed.

Lemma size_filtered_elem (m : master) (ss : session_state)
    (ws : gmap str name) (s : Size.row) :
  s ∈ size_filtered m ss ws <->
  s ∈ sizes m /\
  exists z, Size.uniform_id s = Val z /\
            selected_uniform_id m ss ws = Some (Val z).
Proof.
  unfold size_filtered.
  destruct (selected_uniform_id m ss ws) as [uid|].
  - rewrite filter_elem, ident_eqb_eq. split.
    + intros (Hs & z & Hz & ->). eauto.
    + intros (Hs & z & Hz & [= ->]). eauto.
  - rewrite elem_of_nil. split; [contradiction |].
    intros (_ & z & _ & H). discriminate.
Qed.

(** The uniform shown is the placeholder or a uniform of the pattern
    shown; the size shown is the placeholder or a size of the uniform
    shown. *)
Lemma selection_is_consistent (m : master) (ss : session_state)
    (ws : gmap str name) :
  selection_consistent m ss ws.
Proof.
  split.
  - destruct (selectbox_blank_or_row ws label_uniform
                (widget_key "uniform_" ss) (uniform_filtered m ss ws)
                Uniform.uniform_id Uniform.uniform_name)
      as [H | (u & Hu & Hn)]; [left; exact H | right].
    exists u. apply uniform_filtered_elem in Hu as (Hu & z & Hz & Hp).
    split; [exact Hu |]. split; [exact Hn | rewrite Hz; exact Hp].
  - destruct (selectbox_blank_or_row ws label_size
                (widget_key "size_" ss) (size_filtered m ss ws)
                Size.size_id Size.size_name)
      as [H | (s & Hs & Hn)]; [left; exact H | right].
    exists s. apply size_filtered_elem in Hs as (Hs & z & Hz & Hp).
    split; [exact Hs |]. split; [exact Hn | rewrite Hz; exact Hp].
Qed.

(** With the uniform on the placeholder, the size box has the
    placeholder as its only option. *)
Lemma size_blank_when_uniform_blank (m : master) (ss : session_state)
    (ws : gmap str name) :
  selected_uniform m ss ws = Val placeholder ->
  selected_size m ss ws = Val placeholder.
Proof.
  intros Hu.
  assert (Hopts : size_options m ss ws = [Val placeholder]).
  { unfold size_options, size_filtered, selected_uniform_id.
    rewrite Hu. reflexivity. }
  pose proof (selectbox_elem ws label_size (size_options m ss ws) 0
                (widget_key "size_" ss)) as H.
  fold (selected_size m ss ws) in H. rewrite Hopts in H.
  apply list_elem_of_singleton. apply H. simpl. lia.
Qed.

(** The values kept at the end of a run belong to widgets of that run,
    and every value of a widget of that run is kept. *)
Lemma end_of_run_lookup (ss : session_state) (ws : gmap str name)
    (w : str) (v : name) :
  end_of_run ss ws !! w = Some v ->
  ws !! w = Some v /\ w ∈ active_widgets ss.
Proof.
  unfold end_of_run. intros H.
  apply map_lookup_filter_Some in H. exact H.
Qed.

Lemma end_of_run_active (ss : session_state) (ws : gmap str name)
    (w : str) :
  w ∈ active_widgets ss -> end_of_run ss ws !! w = ws !! w.
Proof.
  intros Hw. unfold end_of_run.
  destruct (ws !! w) as [v|] eqn:E.
  - apply map_lookup_filter_Some. auto.
  - apply map_lookup_filter_None. left. exact E.
Qed.

Lemma uniform_widget_active (ss : session_state) :
  uniform_widget ss ∈ active_widgets ss.
Proof. unfold active_widgets. rewrite !elem_of_cons. auto. Qed.

Lemma size_widget_active (ss : session_state) :
  size_widget ss ∈ active_widgets ss.
Proof. unfold active_widgets. rewrite !elem_of_cons. auto 6. Qed.

(** A choice in one box leaves what is stored for another as it was. *)
Lemma user_selects_other (ss : session_state) (ws : gmap str name)
    (w k : str) (v : name) :
  w <> k -> k ∈ active_widgets ss ->
  user_selects ss ws w v !! k = ws !! k.
Proof.
  intros Hne Hk. unfold user_selects.
  rewrite lookup_insert_ne by exact Hne.
  apply end_of_run_active. exact Hk.
Qed.

Lemma pattern_widget_not_uniform (ss : session_state) :
  pattern_widget ss <> uniform_widget ss.
Proof. unfold pattern_widget, uniform_widget, widget_key. discriminate. Qed.

Lemma pattern_widget_not_size (ss : session_state) :
  pattern_widget ss <> size_widget ss.
Proof. unfold pattern_widget, size_widget, widget_key. discriminate. Qed.

Lemma uniform_widget_not_size (ss : session_state) :
  uniform_widget ss <> size_widget ss.
Proof. unfold uniform_widget, size_widget, widget_key. discriminate. Qed.

Lemma uniform_stale (m : master) (ss : session_state)
    (ws ws' : gmap str name) :
  ws' !! uniform_widget ss = ws !! uniform_widget ss ->
  selected_uniform m ss ws ∉ uniform_options m ss ws' ->
  selected_uniform m ss ws' = Val placeholder.
Proof.
  intros Hk Hout. unfold selected_uniform, uniform_options in *.
  eapply (selectbox_stale ws); [exact Hk | exact Hout].
Qed.

Lemma size_stale (m : master) (ss : session_state)
    (ws ws' : gmap str name) :
  ws' !! size_widget ss = ws !! size_widget ss ->
  selected_size m ss ws ∉ size_options m ss ws' ->
  selected_size m ss ws' = Val placeholder.
Proof.
  intros Hk Hout. unfold selected_size, size_options in *.
  eapply (selectbox_stale ws); [exact Hk | exact Hout].
Qed.

(** C4 fails as stated.  In the sample data the patterns Summer and
    Winter both have a uniform named Shirt with a size named M.  With
    Summer, Shirt and M chosen, the user changes the pattern to Winter:
    the uniform and size boxes are offered the same names as before, so
    they keep their values, and the next run shows Winter with Shirt and
    M, neither back on the placeholder. *)
Lemma C4_same_names_keep_selection :
  let m := sample_master in
  let ss := initial_session in
  let ws' := user_selects ss sample_widgets (pattern_widget ss)
               (text "Winter") in
  selected_pattern m ss sample_widgets = text "Summer" /\
  selected_pattern m ss ws' = text "Winter" /\
  selected_uniform m ss ws' = text "Shirt" /\
  selected_size m ss ws' = text "M" /\
  ~ pattern_change_resets m ss sample_widgets (text "Winter").
Proof.
  assert (Hp : selected_pattern sample_master initial_session
                 sample_widgets = text "Summer")
    by (vm_compute; reflexivity).
  assert (Hp' : selected_pattern sample_master initial_session
                  (user_selects initial_session sample_widgets
                     (pattern_widget initial_session) (text "Winter"))
                = text "Winter")
    by (vm_compute; reflexivity).
  assert (Hu : selected_uniform sample_master initial_session
                 (user_selects initial_session sample_widgets
                    (pattern_widget initial_session) (text "Winter"))
               = text "Shirt")
    by (vm_compute; reflexivity).
  assert (Hs : selected_size sample_master initial_session
                 (user_selects initial_session sample_widgets
                    (pattern_widget initial_session) (text "Winter"))
               = text "M")
    by (vm_compute; reflexivity).
  cbv zeta. repeat split; try assumption.
  unfold pattern_change_resets. cbv zeta. rewrite Hp, Hp', Hu.
  intros H. destruct H as [H _]; [discriminate | discriminate H].
Qed.

(** C4, amended.  After a change of the pattern, the next run shows the
    uniform on the placeholder unless the new pattern offers the uniform
    name that was shown, and the size on the placeholder unless the size
    name that was shown is still offered; after a change of the uniform,
    likewise for the size.  In every run the uniform shown is the
    placeholder or a uniform of the pattern shown, and the size shown is
    the placeholder or a size of the uniform shown: an inconsistent
    parent and child are never shown together. *)
Theorem C4_cascading_reset (m : master) (ss : session_state)
    (ws : gmap str name) (v : name) :
  (let ws' := user_selects ss ws (pattern_widget ss) v in
   (selected_uniform m ss ws ∉ uniform_options m ss ws' ->
    selected_uniform m ss ws' = Val placeholder /\
    selected_size m ss ws' = Val placeholder) /\
   (selected_size m ss ws ∉ size_options m ss ws' ->
    selected_size m ss ws' = Val placeholder)) /\
  (let ws' := user_selects ss ws (uniform_widget ss) v in
   selected_size m ss ws ∉ size_options m ss ws' ->
   selected_size m ss ws' = Val placeholder) /\
  (forall ws' : gmap str name, selection_consistent m ss ws').
Proof.
  split; [| split].
  - split.
    + intros Hout.
      assert (Hu : selected_uniform m ss
                     (user_selects ss ws (pattern_widget ss) v)
                   = Val placeholder).
      { apply (uniform_stale m ss ws); [| exact Hout].
        apply user_selects_other;
          [apply pattern_widget_not_uniform | apply uniform_widget_active]. }
      split; [exact Hu |]. apply size_blank_when_uniform_blank. exact Hu.
    + intros Hout. apply (size_stale m ss ws); [| exact Hout].
      apply user_selects_other;
        [apply pattern_widget_not_size | apply size_widget_active].
  - intros ws' Hout. apply (size_stale m ss ws); [| exact Hout].
    apply user_selects_other;
      [apply uniform_widget_not_size | apply size_widget_active].
  - apply selection_is_consistent.
Qed.

(** The reset at work: with Summer, Shirt and M chosen, the user changes
    the pattern to Work, which has no uniform named Shirt; the next run
    shows uniform and size on the placeholder. *)
Lemma C4_cascading_reset_witness :
  let m := sample_master in
  let ss := initial_session in
  let ws' := user_selects ss sample_widgets (pattern_widget ss)
               (text "Work") in
  selected_uniform m ss ws' = Val placeholder /\
  selected_size m ss ws' = Val placeholder.
Proof.
  apply (proj1 (proj1 (C4_cascading_reset sample_master initial_session
                         sample_widgets (text "Work")))).
  vm_compute. intros H. apply list_elem_of_In in H. simpl in H.
  repeat destruct H as [H | H]; try discriminate H. exact H.
Defined.

(** ** [int] on the strings the handlers pass to it *)

Lemma skip_ascii_space_Forall (P : char -> Prop) (s : str) :
  Forall P s -> Forall P (skip_ascii_space s).
Proof.
  induction 1 as [|c s Hc Hs IH]; simpl; [constructor |].
  destruct (is_ascii_space c); [exact IH | constructor; assumption].
Qed.

Lemma digits_value_from (ds : list N) (acc : Z) :
  (0 <= acc)%Z ->
  (0 <= fold_left (fun a d => 10 * a + Z.of_N d) ds acc)%Z.
Proof.
  revert acc. induction ds as [|d ds IH]; simpl; intros acc Hacc;
    [exact Hacc |].
  apply IH. lia.
Qed.

Lemma digits_value_nonneg (ds : list N) : (0 <= digits_value ds)%Z.
Proof. apply digits_value_from. lia. Qed.

(** A digit of [str.isdigit] never becomes a minus sign. *)
Lemma isdigit_not_minus (c : char) :
  isdigit_char c = true -> to_ascii_decimal_and_space c <> 45%N.
Proof.
  intros Hd. unfold to_ascii_decimal_and_space.
  destruct (c <? 128)%N eqn:E.
  - apply N.ltb_lt in E. apply (isdigit_char_ascii c E) in Hd. lia.
  - destruct (isspace_char c); [discriminate |].
    destruct (decimal_value c); [lia | discriminate].
Qed.

(** On a string of digits, [int] returns no negative number. *)
Lemma py_int_isdigit_nonneg (s : str) (z : Z) :
  Forall (fun c => isdigit_char c = true) s ->
  py_int s = Ok z -> (0 <= z)%Z.
Proof.
  intros Hs. unfold py_int.
  set (t := rev (skip_ascii_space (rev (skip_ascii_space
                (map to_ascii_decimal_and_space s))))).
  assert (Ht : Forall (fun c => c <> 45%N) t).
  { unfold t. apply Forall_rev, skip_ascii_space_Forall, Forall_rev,
      skip_ascii_space_Forall.
    apply Forall_forall. intros c Hc.
    apply list_elem_of_In, in_map_iff in Hc as (c0 & <- & Hc0).
    apply isdigit_not_minus.
    rewrite Forall_forall in Hs. apply Hs, list_elem_of_In, Hc0. }
  assert (Hsign : fst (read_sign t) = false).
  { destruct t as [|c b]; [reflexivity |]. simpl.
    apply Forall_cons_1 in Ht as [Hc _].
    apply N.eqb_neq in Hc. rewrite Hc.
    destruct (c =? 43)%N; reflexivity. }
  destruct (read_sign t) as [neg body]. simpl in Hsign. subst neg.
  destruct (read_digits false body) as [ds|]; [| discriminate].
  destruct (int_max_str_digits <? length ds)%nat; [discriminate |].
  intros [= <-]. apply digits_value_nonneg.
Qed.

(** The tables of decimal digits and of white space are disjoint. *)
Lemma ranges_disjoint (rs rs' : list (N * N)) (c : char) :
  forallb (fun r => forallb (fun r' => (snd r <? fst r')%N
                                       || (snd r' <? fst r)%N) rs') rs
    = true ->
  in_ranges rs c = true -> in_ranges rs' c = false.
Proof.
  intros Hd Hc. unfold in_ranges in *.
  apply existsb_exists in Hc as (r & Hr & Hin).
  rewrite forallb_forall in Hd. specialize (Hd r Hr).
  rewrite forallb_forall in Hd.
  destruct (existsb (in_range c) rs') eqn:E; [| reflexivity].
  apply existsb_exists in E as (r' & Hr' & Hin').
  specialize (Hd r' Hr').
  unfold in_range in Hin, Hin'.
  apply andb_true_iff in Hin as [H1 H2], Hin' as [H3 H4].
  apply N.leb_le in H1, H2, H3, H4.
  apply orb_true_iff in Hd as [Hd | Hd]; apply N.ltb_lt in Hd; lia.
Qed.

Lemma isdecimal_not_space (c : char) :
  isdecimal_char c = true -> isspace_char c = false.
Proof. apply ranges_disjoint. vm_compute. reflexivity. Qed.

Lemma isdecimal_value (c : char) :
  isdecimal_char c = true ->
  exists d, decimal_value c = Some d /\ (d < 10)%N.
Proof.
  unfold isdecimal_char, in_ranges, decimal_value. intros H.
  destruct (find (in_range c) decimal_ranges) as [r|] eqn:E.
  - eexists. split; [reflexivity |]. apply N.mod_lt. discriminate.
  - apply existsb_exists in H as (r & Hr & Hin).
    apply (find_none _ _ E) in Hr. congruence.
Qed.

(** A decimal digit becomes an ASCII digit. *)
Lemma isdecimal_to_ascii_digit (c : char) :
  isdecimal_char c = true ->
  is_ascii_digit (to_ascii_decimal_and_space c) = true.
Proof.
  intros Hd. unfold to_ascii_decimal_and_space.
  destruct (c <? 128)%N eqn:E.
  - apply N.ltb_lt in E. apply in_range_spec.
    apply (isdigit_char_ascii c E). apply isdecimal_isdigit, Hd.
  - rewrite (isdecimal_not_space c Hd).
    destruct (isdecimal_value c Hd) as (d & -> & Hlt).
    apply in_range_spec. lia.
Qed.

Lemma is_ascii_digit_not_space (c : char) :
  is_ascii_digit c = true -> is_ascii_space c = false.
Proof.
  intros H. apply in_range_spec in H. unfold is_ascii_space.
  apply orb_false_iff. split.
  - unfold in_range. simpl. apply andb_false_iff. right.
    apply N.leb_gt. lia.
  - apply N.eqb_neq. lia.
Qed.

Lemma skip_ascii_space_digits (s : str) :
  Forall (fun c => is_ascii_digit c = true) s -> skip_ascii_space s = s.
Proof.
  intros H. destruct H as [|c s Hc Hs]; [reflexivity |]. simpl.
  rewrite (is_ascii_digit_not_space c Hc). reflexivity.
Qed.

Lemma read_digits_all (s : str) :
  Forall (fun c => is_ascii_digit c = true) s ->
  read_digits true s = Some (map (fun c => (c - 48)%N) s) /\
  (s <> [] -> read_digits false s = Some (map (fun c => (c - 48)%N) s)).
Proof.
  induction 1 as [|c s Hc Hs [IH _]].
  - split; [reflexivity | congruence].
  - simpl. rewrite Hc, IH. split; reflexivity.
Qed.

(** On a non-empty string of at most 4300 decimal digits [int] returns,
    and returns a non-negative number. *)
Lemma py_int_decimal_ok (s : str) :
  s <> [] -> Forall (fun c => isdecimal_char c = true) s ->
  (length s <= int_max_str_digits)%nat ->
  exists z, py_int s = Ok z /\ (0 <= z)%Z.
Proof.
  intros Hne Hs Hlen. unfold py_int.
  set (t := map to_ascii_decimal_and_space s).
  assert (Ht : Forall (fun c => is_ascii_digit c = true) t).
  { unfold t. apply Forall_forall. intros c Hc.
    apply list_elem_of_In, in_map_iff in Hc as (c0 & <- & Hc0).
    apply isdecimal_to_ascii_digit.
    rewrite Forall_forall in Hs. apply Hs, list_elem_of_In, Hc0. }
  assert (Htne : t <> []).
  { unfold t. destruct s; [congruence | discriminate]. }
  rewrite (skip_ascii_space_digits t Ht).
  rewrite (skip_ascii_space_digits (rev t)) by (apply Forall_rev, Ht).
  rewrite rev_involutive.
  assert (Hsign : read_sign t = (false, t)).
  { destruct t as [|c b]; [reflexivity |]. simpl.
    apply Forall_cons_1 in Ht as [Hc _]. apply in_range_spec in Hc.
    replace (c =? 45)%N with false by (symmetry; apply N.eqb_neq; lia).
    replace (c =? 43)%N with false by (symmetry; apply N.eqb_neq; lia).
    reflexivity. }
  rewrite Hsign.
  destruct (read_digits_all t Ht) as [_ Hrd]. rewrite (Hrd Htne).
  replace (int_max_str_digits <? length _)%nat with false.
  - eexists. split; [reflexivity | apply digits_value_nonneg].
  - symmetry. apply Nat.ltb_ge. unfold t. rewrite !length_map. exact Hlen.
Qed.

Example py_int_fullwidth_two :
  py_int (quantity_normalized [0xFF12%N]) = Ok 2%Z.
Proof. reflexivity. Qed.

Example py_int_superscript_two : py_int [0xB2%N] = Raise ValueError.
Proof. reflexivity. Qed.

(** ** The tables *)

Lemma st_dataframe_fit (rows : list Entry.t) :
  st_dataframe rows = Ok tt <-> quantities_fit rows.
Proof.
  unfold st_dataframe, quantities_fit.
  destruct (existsb _ rows) eqn:E.
  - split; [discriminate |]. intros H. exfalso.
    apply existsb_exists in E as (e & He & Hq).
    apply Z.leb_le in Hq. rewrite Forall_forall in H.
    specialize (H e (proj2 (list_elem_of_In _ _) He)). simpl in H. lia.
  - split; [intros _ | reflexivity].
    apply Forall_forall. intros e He.
    destruct (Z.ltb_spec (Entry.quantity e) (2 ^ 64)) as [Hlt | Hge];
      [exact Hlt |].
    exfalso. apply not_true_iff_false in E. apply E.
    apply existsb_exists. exists e.
    split; [apply list_elem_of_In; exact He | apply Z.leb_le; exact Hge].
Qed.

Lemma st_dataframe_raise (rows : list Entry.t) (x : exn) :
  st_dataframe rows = Raise x <->
  x = DataframeError /\ ~ quantities_fit rows.
Proof.
  rewrite <- st_dataframe_fit. unfold st_dataframe.
  destruct (existsb _ rows).
  - split; [intros [= <-]; split; [reflexivity | discriminate] |].
    intros [-> _]. reflexivity.
  - split; [discriminate | intros [_ H]; exfalso; apply H; reflexivity].
Qed.

(** With every quantity below 2^64 the display part of a run raises
    nothing. *)
Lemma display_fit (ss : session_state) (inp : inputs) :
  quantities_fit (entries ss) ->
  review_part ss inp
  = Ok (if review_displayed ss && reset_button inp
        then Some (reset_handler ss) else None) /\
  current_entries_part ss = Ok tt.
Proof.
  intros Hfit. apply st_dataframe_fit in Hfit.
  unfold review_part, current_entries_part. rewrite Hfit. simpl.
  split.
  - destruct (review_displayed ss), (reset_button inp); reflexivity.
  - destruct (current_entries_displayed ss); reflexivity.
Qed.

(** ** The handlers *)

Lemma make_entry_Ok (m : master) (ss : session_state)
    (ws : gmap str name) (inp : inputs) (e : Entry.t) :
  make_entry m ss ws inp = Ok e ->
  py_int (quantity_normalized (quantity_input inp))
    = Ok (Entry.quantity e) /\
  Entry.pattern_id e = selected_pattern_id m ss ws /\
  Entry.uniform_id e = selected_uniform_id m ss ws /\
  Entry.size_id e =
    get_selected_id (size_filtered m ss ws) Size.size_id Size.size_name
      (Some (selected_size m ss ws)) /\
  Entry.size e = selected_size m ss ws /\
  Entry.user_name e = str_strip (user_name_input inp).
Proof.
  unfold make_entry.
  destruct (py_int (quantity_normalized (quantity_input inp))) as [q|x];
    simpl; [| discriminate].
  intros [= <-]. simpl. auto 6.
Qed.

(** A run in which no handler is taken is its display part. *)
Lemma script_display (m : master) (ss : session_state)
    (ws : gmap str name) (inp : inputs) :
  add_entry inp && form_filled m ss ws inp = false ->
  finish_entry inp && form_filled m ss ws inp = false ->
  script m ss ws inp
  = if review_displayed ss then
      match st_dataframe (entries ss) with
      | Raise x => Raise x
      | Ok _ => if reset_button inp then Ok (reset_handler ss)
                else Ok (Done ss)
      end
    else if current_entries_displayed ss then
      match st_dataframe (entries ss) with
      | Raise x => Raise x
      | Ok _ => Ok (Done ss)
      end
    else Ok (Done ss).
Proof.
  intros Ha Hf. unfold script, review_part, current_entries_part.
  rewrite Ha, Hf.
  unfold review_displayed, current_entries_displayed.
  destruct (show_success ss), (bool_decide (entries ss = [])); simpl;
    try reflexivity;
    destruct (st_dataframe (entries ss)) as [[]|x]; simpl;
    try reflexivity.
  destruct (reset_button inp); reflexivity.
Qed.

(** The ways a run ends without raising. *)
Lemma script_cases (m : master) (ss : session_state)
    (ws : gmap str name) (inp : inputs) (o : outcome) :
  script m ss ws inp = Ok o ->
  o = Done ss \/
  (exists e, form_filled m ss ws inp = true /\
             make_entry m ss ws inp = Ok e /\
             o = Rerun {| entries := entries ss ++ [e];
                          show_success := show_success ss;
                          current_applicant :=
                            Some (selected_applicant m ss ws);
                          reset_trigger := (reset_trigger ss + 1)%N |}) \/
  (exists e, form_filled m ss ws inp = true /\
             make_entry m ss ws inp = Ok e /\
             o = Rerun {| entries := entries ss ++ [e];
                          show_success := true;
                          current_applicant := None;
                          reset_trigger := (reset_trigger ss + 1)%N |}) \/
  (review_displayed ss = true /\ o = reset_handler ss).
Proof.
  destruct (add_entry inp && form_filled m ss ws inp) eqn:Ea.
  { unfold script, add_entry_handler. rewrite Ea.
    apply andb_true_iff in Ea as [_ Hf].
    destruct (make_entry m ss ws inp) as [e|x]; simpl; [| discriminate].
    intros [= <-]. right; left. eauto. }
  destruct (finish_entry inp && form_filled m ss ws inp) eqn:Ef.
  { unfold script, finish_entry_handler. rewrite Ea, Ef.
    apply andb_true_iff in Ef as [_ Hf].
    destruct (make_entry m ss ws inp) as [e|x]; simpl; [| discriminate].
    intros [= <-]. right; right; left. eauto. }
  rewrite (script_display m ss ws inp Ea Ef).
  destruct (review_displayed ss) eqn:Er.
  - destruct (st_dataframe (entries ss)); [| discriminate].
    destruct (reset_button inp); intros [= <-]; auto.
  - destruct (current_entries_displayed ss); [| intros [= <-]; auto].
    destruct (st_dataframe (entries ss)); [| discriminate].
    intros [= <-]; auto.
Qed.

(** A click on "add" or "finish" while the form is incomplete does
    nothing: the run shows what there is to show. *)
Lemma incomplete_form_is_noop (m : master) (ss : session_state)
    (ws : gmap str name) (inp : inputs) :
  form_filled m ss ws inp = false -> reset_button inp = false ->
  (script m ss ws inp = Ok (Done ss) \/
   script m ss ws inp = Raise DataframeError) /\
  (quantities_fit (entries ss) -> script m ss ws inp = Ok (Done ss)).
Proof.
  intros Hf Hr.
  rewrite (script_display m ss ws inp)
    by (rewrite Hf; apply andb_false_r).
  rewrite Hr. split.
  - destruct (review_displayed ss), (current_entries_displayed ss);
      auto;
      destruct (st_dataframe (entries ss)) as [[]|x] eqn:E; auto;
      apply st_dataframe_raise in E as [-> _]; auto.
  - intros Hfit. apply st_dataframe_fit in Hfit. rewrite Hfit.
    destruct (review_displayed ss), (current_entries_displayed ss);
      reflexivity.
Qed.

(** When [int] reads the quantity, "add" appends one entry and leaves
    the phase as it is. *)
Lemma add_click_appends (m : master) (ss : session_state)
    (ws : gmap str name) (inp : inputs) (q : Z) :
  form_filled m ss ws inp = true -> add_entry inp = true ->
  py_int (quantity_normalized (quantity_input inp)) = Ok q ->
  exists e ss',
    script m ss ws inp = Ok (Rerun ss') /\
    entries ss' = entries ss ++ [e] /\
    length (entries ss') = S (length (entries ss)) /\
    Entry.quantity e = q /\
    phase_of ss' = phase_of ss /\
    current_applicant ss' = Some (selected_applicant m ss ws).
Proof.
  intros Hf Ha Hq. unfold script, add_entry_handler, make_entry.
  rewrite Hf, Ha, Hq. simpl.
  eexists. eexists. split; [reflexivity |]. simpl.
  rewrite length_app. simpl. repeat split. lia.
Qed.

(** When [int] reads the quantity, "finish" appends one entry and the
    session is under review. *)
Lemma finish_click_appends (m : master) (ss : session_state)
    (ws : gmap str name) (inp : inputs) (q : Z) :
  form_filled m ss ws inp = true ->
  add_entry inp = false -> finish_entry inp = true ->
  py_int (quantity_normalized (quantity_input inp)) = Ok q ->
  exists e ss',
    script m ss ws inp = Ok (Rerun ss') /\
    entries ss' = entries ss ++ [e] /\
    length (entries ss') = S (length (entries ss)) /\
    Entry.quantity e = q /\
    phase_of ss' = REVIEWING /\
    current_applicant ss' = None.
Proof.
  intros Hf Ha Hfin Hq. unfold script, finish_entry_handler, make_entry.
  rewrite Hf, Ha, Hfin, Hq. simpl.
  eexists. eexists. split; [reflexivity |]. simpl.
  rewrite length_app. simpl. repeat split. lia.
Qed.

(** "Reset", offered once the review table is shown, empties the
    session. *)
Lemma reset_click_clears (m : master) (ss : session_state)
    (ws : gmap str name) (inp : inputs) :
  review_displayed ss = true -> quantities_fit (entries ss) ->
  add_entry inp = false -> finish_entry inp = false ->
  reset_button inp = true ->
  exists ss',
    script m ss ws inp = Ok (Rerun ss') /\
    entries ss' = [] /\ phase_of ss' = COLLECTING /\
    current_applicant ss' = None.
Proof.
  intros Hr Hfit Ha Hf Hb.
  rewrite (script_display m ss ws inp) by (rewrite ?Ha, ?Hf; reflexivity).
  apply st_dataframe_fit in Hfit. rewrite Hr, Hfit, Hb.
  eexists. split; [reflexivity |]. auto.
Qed.

(** A quantity of at most 4300 decimal digits is read by [int]. *)
Lemma decimal_quantity_is_read (q : str) :
  quantity_normalized q <> [] ->
  Forall (fun c => isdecimal_char c = true) (quantity_normalized q) ->
  (length (quantity_normalized q) <= int_max_str_digits)%nat ->
  is_quantity_valid q = true /\
  exists z, py_int (quantity_normalized q) = Ok z /\ (0 <= z)%Z.
Proof.
  intros Hne Hd Hlen. split.
  - apply is_quantity_valid_spec. split; [exact Hne |].
    eapply Forall_impl; [exact Hd |]. intros c. apply isdecimal_isdigit.
  - apply py_int_decimal_ok; assumption.
Qed.

(** No run raises when every quantity that passes the digit check is
    made of at most 4300 decimal digits and every quantity held is below
    2^64. *)
Lemma script_returns_on_decimal_quantity (m : master) (ss : session_state)
    (ws : gmap str name) (inp : inputs) :
  (is_quantity_valid (quantity_input inp) = true ->
   Forall (fun c => isdecimal_char c = true)
     (quantity_normalized (quantity_input inp)) /\
   (length (quantity_normalized (quantity_input inp))
    <= int_max_str_digits)%nat) ->
  quantities_fit (entries ss) ->
  exists o, script m ss ws inp = Ok o.
Proof.
  intros Hdec Hfit.
  assert (Hmk : form_filled m ss ws inp = true ->
                exists e, make_entry m ss ws inp = Ok e).
  { intros Hf. unfold form_filled in Hf.
    apply all_fields_filled_spec in Hf as (_ & _ & _ & _ & _ & Hq & _).
    destruct (Hdec Hq) as [Hd Hlen].
    apply is_quantity_valid_spec in Hq as [Hne _].
    destruct (py_int_decimal_ok _ Hne Hd Hlen) as (z & Hz & _).
    unfold make_entry. rewrite Hz. simpl. eauto. }
  destruct (add_entry inp && form_filled m ss ws inp) eqn:Ea.
  { unfold script, add_entry_handler. rewrite Ea.
    apply andb_true_iff in Ea as [_ Hf].
    destruct (Hmk Hf) as (e & ->). simpl. eauto. }
  destruct (finish_entry inp && form_filled m ss ws inp) eqn:Ef.
  { unfold script, finish_entry_handler. rewrite Ea, Ef.
    apply andb_true_iff in Ef as [_ Hf].
    destruct (Hmk Hf) as (e & ->). simpl. eauto. }
  rewrite (script_display m ss ws inp Ea Ef).
  apply st_dataframe_fit in Hfit. rewrite Hfit.
  destruct (review_displayed ss);
    [destruct (reset_button inp)
    | destruct (current_entries_displayed ss)]; eauto.
Qed.

Lemma form_filled_spec (m : master) (ss : session_state)
    (ws : gmap str name) (inp : inputs) :
  form_filled m ss ws inp = true ->
  selected_pattern m ss ws <> Val placeholder /\
  selected_uniform m ss ws <> Val placeholder /\
  selected_size m ss ws <> Val placeholder /\
  is_quantity_valid (quantity_input inp) = true.
Proof.
  unfold form_filled. intros H. apply all_fields_filled_spec in H. tauto.
Qed.

(** ** What an entry holds *)

Lemma make_entry_quantity_nonneg (m : master) (ss : session_state)
    (ws : gmap str name) (inp : inputs) (e : Entry.t) :
  form_filled m ss ws inp = true -> make_entry m ss ws inp = Ok e ->
  (0 <= Entry.quantity e)%Z.
Proof.
  intros Hf He. apply form_filled_spec in Hf as (_ & _ & _ & Hq).
  apply is_quantity_valid_spec in Hq as [_ Hq].
  apply make_entry_Ok in He as [He _].
  exact (py_int_isdigit_nonneg _ _ Hq He).
Qed.

(** A choice that is text and not the placeholder resolves to a row of
    the table the options were made from. *)
Lemma selected_row {R I : Type} (df : list R) (id_col : R -> I)
    (name_col : R -> name) (s : str) :
  Val s ∈ create_dropdown_options df id_col name_col true ->
  Val s <> Val placeholder ->
  exists r, r ∈ df /\ name_col r = Val s /\
            get_selected_id df id_col name_col (Some (Val s))
            = Some (id_col r).
Proof.
  intros Hin Hph.
  apply options_elem in Hin as [Hin | (r0 & Hr0 & Hn0)];
    [contradiction |].
  assert (Hrow : exists r, r ∈ df /\ name_eq (name_col r) (Val s)).
  { exists r0. split; [exact Hr0 |]. rewrite Hn0.
    apply name_eq_refl_val. }
  destruct (get_selected_id_member df id_col name_col (Val s) Hph Hrow)
    as (i & Hi).
  destruct (get_selected_id_Some_elem df id_col name_col (Val s) i Hi)
    as (_ & r & Hr & Hn & <-).
  exists r. split; [exact Hr |]. split; [| exact Hi].
  apply name_eq_eq. exact Hn.
Qed.




(** An invariant of the entries: it holds of every entry [make_entry]
    builds from a complete form, hence of every entry of every reachable
    session. *)
Lemma entries_invariant (m : master) (P : Entry.t -> Prop) :
  (forall ss ws inp e,
     form_filled m ss ws inp = true -> make_entry m ss ws inp = Ok e ->
     P e) ->
  forall ss, reachable m ss -> Forall P (entries ss).
Proof.
  intros HP ss Hr. induction Hr as [|ss ws inp o Hr IH Hs].
  - constructor.
  - apply script_cases in Hs
      as [-> | [(e & Hf & He & ->) | [(e & Hf & He & ->) | [_ ->]]]];
      simpl; try exact IH.
    + apply Forall_app. split; [exact IH |]. constructor; [| constructor].
      exact (HP ss ws inp e Hf He).
    + apply Forall_app. split; [exact IH |]. constructor; [| constructor].
      exact (HP ss ws inp e Hf He).
    + constructor.
Qed.

Lemma sample_added_zero_reachable : reachable sample_master sample_added_zero.
Proof.
  apply (reachable_run sample_master initial_session sample_widgets
           (click_add (ascii_str "0") (ascii_str "Suzuki"))
           (Rerun sample_added_zero)).
  - apply reachable_initial.
  - vm_compute. reflexivity.
Qed.

Lemma sample_finished_reachable : reachable sample_master sample_finished.
Proof.
  apply (reachable_run sample_master initial_session sample_widgets
           (click_finish [0xFF12%N] (ascii_str "Suzuki"))
           (Rerun sample_finished)).
  - apply reachable_initial.
  - vm_compute. reflexivity.
Qed.


Lemma sample_finished_huge_reachable :
  reachable sample_master sample_finished_huge.
Proof.
  apply (reachable_run sample_master initial_session sample_widgets
           (click_finish (ascii_str "18446744073709551616")
              (ascii_str "Suzuki"))
           (Rerun sample_finished_huge)).
  - apply reachable_initial.
  - vm_compute. reflexivity.
Qed.

(** ** The session *)

(** C10. In every reachable session state, [show_success] being true
    implies that the list of entries is non-empty, so the review part
    (guarded by [show_success] and a non-empty list) is displayed and the
    export has entries to format. *)
Theorem C10_review_has_entries (m : master) (ss : session_state) :
  reachable m ss -> show_success ss = true ->
  entries ss <> [] /\ review_displayed ss = true.
Proof.
  intros Hr. 
  assert (H : show_success ss = true -> entries ss <> []).
  { induction Hr as [|ss ws inp o Hr IH Hs]; [discriminate |].
    apply script_cases in Hs
      as [-> | [(e & _ & _ & ->) | [(e & _ & _ & ->) | [_ ->]]]];
      simpl; try exact IH; try discriminate.
    - intros _ Hnil. apply app_eq_nil in Hnil as [_ Hnil]. discriminate.
    - intros _ Hnil. apply app_eq_nil in Hnil as [_ Hnil]. discriminate. }
  intros Hs. split; [exact (H Hs) |].
  unfold review_displayed. rewrite Hs. simpl.
  apply negb_true_iff, bool_decide_eq_false. exact (H Hs).
Qed.

(** The invariant at the sample session after "finish". *)
Lemma C10_review_has_entries_witness :
  entries sample_finished <> [] /\ review_displayed sample_finished = true.
Proof.
  apply (C10_review_has_entries sample_master sample_finished).
  - exact sample_finished_reachable.
  - reflexivity.
Defined.

(** C3 fails as stated: with the quantity ["0"] the form is complete,
    "add" appends an entry, and its quantity is 0. *)
Lemma C3_zero_quantity_is_appended :
  form_filled sample_master initial_session sample_widgets
    (click_add (ascii_str "0") (ascii_str "Suzuki")) = true /\
  script sample_master initial_session sample_widgets
    (click_add (ascii_str "0") (ascii_str "Suzuki"))
    = Ok (Rerun sample_added_zero) /\
  reachable sample_master sample_added_zero /\
  exists e, entries sample_added_zero = [e] /\ Entry.quantity e = 0%Z.
Proof.
  split; [vm_compute; reflexivity |].
  split; [vm_compute; reflexivity |].
  split; [exact sample_added_zero_reachable |].
  eexists. split; reflexivity.
Qed.

(** C3, amended.  Every entry ever appended to the entries of a session
    has a quantity that is a non-negative integer: never negative, never
    non-numeric.  (Zero is possible.) *)
Theorem C3_quantity_is_nonnegative (m : master) (ss : session_state) :
  reachable m ss ->
  Forall (fun e => (0 <= Entry.quantity e)%Z) (entries ss).
Proof.
  apply entries_invariant. apply make_entry_quantity_nonneg.
Qed.

(** The bound at the sample session after "add" with the quantity ["0"]. *)
Lemma C3_quantity_is_nonnegative_witness :
  Forall (fun e => (0 <= Entry.quantity e)%Z) (entries sample_added_zero).
Proof.
  apply (C3_quantity_is_nonnegative sample_master sample_added_zero).
  exact sample_added_zero_reachable.
Defined.




(** C2, at the failing input.  The quantity ["²"] (SUPERSCRIPT TWO,
    U+00B2) passes [str.isdigit], so the form is complete and both
    buttons are enabled; [int] does not read it, and the "add" and the
    "finish" handler both end in a [ValueError]. *)
Theorem C2_superscript_quantity_raises :
  is_quantity_valid [0xB2%N] = true /\
  form_filled sample_master initial_session sample_widgets
    (click_add [0xB2%N] (ascii_str "Suzuki")) = true /\
  py_int (quantity_normalized [0xB2%N]) = Raise ValueError /\
  script sample_master initial_session sample_widgets
    (click_add [0xB2%N] (ascii_str "Suzuki")) = Raise ValueError /\
  script sample_master initial_session sample_widgets
    (click_finish [0xB2%N] (ascii_str "Suzuki")) = Raise ValueError.
Proof. repeat split; vm_compute; reflexivity. Qed.

(** A quantity of 4301 ASCII digits passes the digit check as well, and
    [int] refuses it for its length. *)
Example py_int_too_many_digits :
  is_quantity_valid (repeat 49%N 4301) = true /\
  py_int (quantity_normalized (repeat 49%N 4301)) = Raise ValueError.
Proof. split; vm_compute; reflexivity. Qed.

(** C7, at the failing input.  The session is collecting and the pending
    selection is validated, with the quantity ["²"]; "add" does not
    append an entry, and "finish" neither appends one nor starts the
    review: the run raises and the session stays as it was. *)
Theorem C7_validated_add_appends_nothing :
  phase_of initial_session = COLLECTING /\
  form_filled sample_master initial_session sample_widgets
    (click_add [0xB2%N] (ascii_str "Suzuki")) = true /\
  form_filled sample_master initial_session sample_widgets
    (click_finish [0xB2%N] (ascii_str "Suzuki")) = true /\
  length (entries (sample_run initial_session
                     (click_add [0xB2%N] (ascii_str "Suzuki"))))
    = length (entries initial_session) /\
  length (entries (sample_run initial_session
                     (click_finish [0xB2%N] (ascii_str "Suzuki"))))
    = length (entries initial_session) /\
  phase_of (sample_run initial_session
              (click_finish [0xB2%N] (ascii_str "Suzuki"))) = COLLECTING.
Proof. repeat split; vm_compute; reflexivity. Qed.

(** With a quantity [int] reads, the sample session behaves as the
    state machine says: "add" appends, "finish" appends and starts the
    review, "reset" empties the session. *)
Example sample_add_then_finish_then_reset :
  let s1 := sample_run initial_session
              (click_add [0xFF12%N] (ascii_str "Suzuki")) in
  let s2 := sample_run s1 (click_finish (ascii_str "3") (ascii_str "Sato")) in
  let s3 := sample_run s2 click_reset in
  (map Entry.quantity (entries s1), phase_of s1, current_applicant s1,
   map Entry.quantity (entries s2), phase_of s2,
   entries s3, phase_of s3)
  = ([2%Z], COLLECTING, Some (text "Tanaka"),
     [2%Z; 3%Z], REVIEWING,
     [], COLLECTING).
Proof. vm_compute. reflexivity. Qed.

(** * Further properties of the script *)

(** ** Options and their resolution *)

(** X1. [create_dropdown_options] returns the names of the rows in table
    order, after the placeholder when a blank is asked for; so with a
    blank the placeholder is always the first option, also for an empty
    table, and there is one option more than rows. *)
Theorem X1_dropdown_options_shape {R I : Type} (df : list R)
    (id_col : R -> I) (name_col : R -> name) (include_blank : bool) :
  create_dropdown_options df id_col name_col include_blank
  = (if include_blank then [Val placeholder] else []) ++ map name_col df
  /\ length (create_dropdown_options df id_col name_col include_blank)
     = ((if include_blank then 1 else 0) + length df)%nat
  /\ (forall i r, df !! i = Some r ->
        create_dropdown_options df id_col name_col include_blank
          !! ((if include_blank then 1 else 0) + i)%nat
        = Some (name_col r)).
Proof.
  assert (E : create_dropdown_options df id_col name_col include_blank
              = (if include_blank then [Val placeholder] else [])
                ++ map name_col df).
  { destruct df as [|r df]; [destruct include_blank; reflexivity |].
    unfold create_dropdown_options. rewrite map_map.
    destruct include_blank; reflexivity. }
  split; [exact E |]. rewrite E. split.
  - rewrite length_app, length_map. destruct include_blank; reflexivity.
  - intros i r Hi.
    assert (Hm : map name_col df !! i = Some (name_col r)).
    { change (map name_col df) with (name_col <$> df).
      rewrite list_lookup_fmap, Hi. reflexivity. }
    destruct include_blank; simpl; exact Hm.
Qed.

(** X2. Every option a select box offers that is text, other than the
    placeholder, resolves: [get_selected_id] on the table the options
    were made from returns the identifier cell of a row with that name.
    The missing value of an empty name cell is offered as an option too,
    and resolves to nothing. *)
Theorem X2_offered_option_resolves {R I : Type} (df : list R)
    (id_col : R -> I) (name_col : R -> name) (v : name) :
  v ∈ create_dropdown_options df id_col name_col true ->
  v <> Val placeholder ->
  match v with
  | Val s => exists r, r ∈ df /\ name_col r = Val s /\
                       get_selected_id df id_col name_col (Some (Val s))
                       = Some (id_col r)
  | NaN => (exists r, r ∈ df /\ name_col r = NaN) /\
           get_selected_id df id_col name_col (Some NaN) = None
  end.
Proof.
  intros Hv Hph. destruct v as [s|].
  - exact (selected_row df id_col name_col s Hv Hph).
  - split; [| apply get_selected_id_nan].
    apply options_elem in Hv as [Hv | Hv]; [discriminate Hv | exact Hv].
Qed.

Lemma X2_offered_option_resolves_witness :
  exists r, r ∈ patterns sample_master /\
            Pattern.pattern_name r = text "Winter" /\
            get_selected_id (patterns sample_master) Pattern.pattern_id
              Pattern.pattern_name (Some (text "Winter"))
            = Some (Pattern.pattern_id r).
Proof.
  apply (X2_offered_option_resolves (patterns sample_master)
           Pattern.pattern_id Pattern.pattern_name (text "Winter")).
  - vm_compute. apply list_elem_of_In. simpl. auto.
  - discriminate.
Defined.

(** The size without a name of the sample data is offered and resolves
    to nothing. *)
Example nameless_size_is_offered :
  NaN ∈ create_dropdown_options (sizes sample_master) Size.size_id
          Size.size_name true /\
  get_selected_id (sizes sample_master) Size.size_id Size.size_name
    (Some NaN) = None.
Proof.
  split; [| reflexivity].
  apply list_elem_of_In. vm_compute. auto 6.
Qed.

Lemma filter_nil_of_all_false {R : Type} (p : R -> bool) (l : list R) :
  (forall r, r ∈ l -> p r = false) -> List.filter p l = [].
Proof.
  induction l as [|a l IH]; intros H; [reflexivity |]. simpl.
  rewrite (H a) by apply list_elem_of_here.
  apply IH. intros r Hr. apply H, list_elem_of_further, Hr.
Qed.

(** X3. When the name cells of a table are pairwise distinct, resolving
    the name of a row gives back the identifier cell of that very row
    when the name is text other than the placeholder; a row named like
    the placeholder, or whose name cell is empty, resolves to
    nothing. *)
Theorem X3_unique_names_round_trip {R I : Type} (df : list R)
    (id_col : R -> I) (name_col : R -> name) (r : R) :
  NoDup (map name_col df) -> r ∈ df ->
  get_selected_id df id_col name_col (Some (name_col r))
  = match name_col r with
    | Val s => if str_eqb s placeholder then None else Some (id_col r)
    | NaN => None
    end.
Proof.
  intros Hnd Hr. destruct (name_col r) as [s|] eqn:En;
    [| apply get_selected_id_nan].
  unfold get_selected_id.
  change (name_eqb (Val s) (Val placeholder)) with (str_eqb s placeholder).
  destruct (str_eqb s placeholder); [reflexivity |].
  apply list_elem_of_In, in_split in Hr as (l1 & l2 & ->).
  rewrite map_app in Hnd. simpl in Hnd.
  apply NoDup_app in Hnd as (_ & Hdisj & _).
  assert (Hl1 : forall r', r' ∈ l1 ->
                  name_eqb (name_col r') (Val s) = false).
  { intros r' Hr'. destruct (name_eqb _ _) eqn:E; [| reflexivity].
    apply name_eqb_eq, name_eq_eq in E. exfalso.
    apply (Hdisj (name_col r)).
    - rewrite En, <- E.
      apply list_elem_of_In, in_map, list_elem_of_In, Hr'.
    - apply list_elem_of_here. }
  rewrite List.filter_app, (filter_nil_of_all_false _ l1 Hl1). simpl.
  rewrite En. change (name_eqb (Val s) (Val s)) with (str_eqb s s).
  replace (str_eqb s s) with true
    by (symmetry; apply str_eqb_eq; reflexivity).
  reflexivity.
Qed.

Lemma X3_unique_names_round_trip_witness :
  get_selected_id (patterns sample_master) Pattern.pattern_id
    Pattern.pattern_name (Some (text "Work"))
  = if str_eqb (ascii_str "Work") placeholder then None
    else Some (Val 3%Z).
Proof.
  apply (X3_unique_names_round_trip (patterns sample_master)
           Pattern.pattern_id Pattern.pattern_name
           {| Pattern.pattern_id := Val 3%Z;
              Pattern.pattern_name := text "Work" |}).
  - simpl. repeat constructor; rewrite ?elem_of_cons, ?elem_of_nil;
      intros H; repeat destruct H as [H | H]; try discriminate H;
      try contradiction.
  - apply list_elem_of_In. simpl. auto.
Defined.

(** ** The cascade *)

(** X4. The options of the uniform box are the placeholder and the names
    of the uniforms of the pattern shown, and the options of the size box
    are the placeholder and the names of the sizes of the uniform
    shown. *)
Theorem X4_cascade_options (m : master) (ss : session_state)
    (ws : gmap str name) (v : name) :
  (v ∈ uniform_options m ss ws <->
   v = Val placeholder \/
   exists u p, u ∈ uniforms m /\ Uniform.uniform_name u = v /\
               Uniform.pattern_id u = Val p /\
               selected_pattern_id m ss ws = Some (Val p))
  /\
  (v ∈ size_options m ss ws <->
   v = Val placeholder \/
   exists s z, s ∈ sizes m /\ Size.size_name s = v /\
               Size.uniform_id s = Val z /\
               selected_uniform_id m ss ws = Some (Val z)).
Proof.
  split.
  - unfold uniform_options. rewrite options_elem.
    apply or_iff_compat_l. split.
    + intros (u & Hu & Hn).
      apply uniform_filtered_elem in Hu as (Hu & p & Hp & Hsel).
      exists u, p. auto.
    + intros (u & p & Hu & Hn & Hp & Hsel). exists u.
      split; [| exact Hn]. apply uniform_filtered_elem. eauto.
  - unfold size_options. rewrite options_elem.
    apply or_iff_compat_l. split.
    + intros (s & Hs & Hn).
      apply size_filtered_elem in Hs as (Hs & z & Hz & Hsel).
      exists s, z. auto.
    + intros (s & z & Hs & Hn & Hz & Hsel). exists s.
      split; [| exact Hn]. apply size_filtered_elem. eauto.
Qed.

(** X5. While the pattern box shows the placeholder, or a pattern that
    has no uniform, the uniform box and the size box offer and show
    nothing but the placeholder, and the form is incomplete whatever is
    typed: "add" and "finish" do nothing.  The session stays as it is:
    the run ends with it, or stops at a table that cannot be shown, which
    does not happen while every quantity held is below 2^64. *)
Theorem X5_no_uniform_no_order (m : master) (ss : session_state)
    (ws : gmap str name) :
  (selected_pattern m ss ws = Val placeholder \/
   forall u p, u ∈ uniforms m -> Uniform.pattern_id u = Val p ->
     selected_pattern_id m ss ws <> Some (Val p)) ->
  uniform_options m ss ws = [Val placeholder] /\
  selected_uniform m ss ws = Val placeholder /\
  size_options m ss ws = [Val placeholder] /\
  selected_size m ss ws = Val placeholder /\
  forall inp, form_filled m ss ws inp = false /\
              (reset_button inp = false ->
               (script m ss ws inp = Ok (Done ss) \/
                script m ss ws inp = Raise DataframeError) /\
               (quantities_fit (entries ss) ->
                script m ss ws inp = Ok (Done ss))).
Proof.
  intros H.
  assert (Hf : uniform_filtered m ss ws = []).
  { unfold uniform_filtered. destruct H as [H | H].
    - unfold selected_pattern_id. rewrite H. reflexivity.
    - destruct (selected_pattern_id m ss ws) as [pid|] eqn:Ep;
        [| reflexivity].
      apply filter_nil_of_all_false. intros u Hu.
      destruct (ident_eqb (Uniform.pattern_id u) pid) eqn:E;
        [| reflexivity].
      apply ident_eqb_eq in E as (z & Hz & ->).
      exfalso. exact (H u z Hu Hz eq_refl). }
  assert (Ho : uniform_options m ss ws = [Val placeholder]).
  { unfold uniform_options. rewrite Hf. reflexivity. }
  assert (Hu : selected_uniform m ss ws = Val placeholder).
  { pose proof (selectbox_elem ws label_uniform (uniform_options m ss ws)
                  0 (widget_key "uniform_" ss)) as E.
    fold (selected_uniform m ss ws) in E. rewrite Ho in E.
    apply list_elem_of_singleton. apply E. simpl. lia. }
  assert (Hs : selected_size m ss ws = Val placeholder)
    by (apply size_blank_when_uniform_blank; exact Hu).
  assert (Hso : size_options m ss ws = [Val placeholder]).
  { unfold size_options, size_filtered, selected_uniform_id.
    rewrite Hu. reflexivity. }
  repeat (split; [assumption |]).
  intros inp.
  assert (Hff : form_filled m ss ws inp = false).
  { destruct (form_filled m ss ws inp) eqn:E; [| reflexivity].
    apply form_filled_spec in E as (_ & E & _). contradiction. }
  split; [exact Hff |]. intros Hr.
  apply incomplete_form_is_noop; assumption.
Qed.

(** Nothing chosen yet: the pattern box shows the placeholder. *)
Lemma X5_no_uniform_no_order_witness :
  uniform_options sample_master initial_session ∅ = [Val placeholder] /\
  selected_uniform sample_master initial_session ∅ = Val placeholder /\
  size_options sample_master initial_session ∅ = [Val placeholder] /\
  selected_size sample_master initial_session ∅ = Val placeholder /\
  forall inp, form_filled sample_master initial_session ∅ inp = false /\
              (reset_button inp = false ->
               (script sample_master initial_session ∅ inp
                = Ok (Done initial_session) \/
                script sample_master initial_session ∅ inp
                = Raise DataframeError) /\
               (quantities_fit (entries initial_session) ->
                script sample_master initial_session ∅ inp
                = Ok (Done initial_session))).
Proof.
  apply (X5_no_uniform_no_order sample_master initial_session ∅).
  left. vm_compute. reflexivity.
Defined.

(** ** After a rerun *)

Lemma uint_str_inj (d d' : Decimal.uint) :
  uint_str d = uint_str d' -> d = d'.
Proof.
  revert d'. induction d as [|d IH|d IH|d IH|d IH|d IH|d IH|d IH|d IH|d IH|d IH];
    intros [|d'|d'|d'|d'|d'|d'|d'|d'|d'|d'] H; simpl in H;
    try discriminate H; try reflexivity;
    injection H as H; f_equal; apply IH; exact H.
Qed.

(** The keys of two runs differ as soon as [reset_trigger] does. *)
Lemma widget_key_inj (prefix : String.string) (ss ss' : session_state) :
  widget_key prefix ss = widget_key prefix ss' ->
  reset_trigger ss = reset_trigger ss'.
Proof.
  unfold widget_key, py_str. intros H.
  apply app_inv_head in H. apply uint_str_inj in H.
  apply DecimalN.Unsigned.to_uint_inj. exact H.
Qed.

(** Once [reset_trigger] has moved, no select box of the new run has a
    value left from the old one. *)
Lemma rekeyed_widget_is_fresh (ss ss' : session_state)
    (ws : gmap str name) (k : str) :
  reset_trigger ss' <> reset_trigger ss ->
  k ∈ active_widgets ss' ->
  end_of_run ss ws !! k = None.
Proof.
  intros Hrt Hk.
  destruct (end_of_run ss ws !! k) as [x|] eqn:E; [| reflexivity].
  apply end_of_run_lookup in E as [_ E]. exfalso.
  unfold active_widgets, applicant_widget, location_widget,
    pattern_widget, uniform_widget, size_widget in Hk, E.
  rewrite !elem_of_cons, elem_of_nil in Hk, E.
  destruct Hk as [-> | [-> | [-> | [-> | [-> | []]]]]];
    destruct E as [E | [E | [E | [E | [E | []]]]]];
    try (apply widget_key_inj in E; congruence);
    unfold widget_key in E; discriminate E.
Qed.

Lemma selectbox_default (ws : gmap str name) (label : str)
    (options : list name) (index : nat) (key : str) :
  ws !! key = None ->
  selectbox ws label options index key = nth index options (Val []).
Proof. intros H. unfold selectbox. rewrite H. reflexivity. Qed.

Ltac fresh_box Hrt :=
  apply selectbox_fresh;
  eapply rekeyed_widget_is_fresh; [exact Hrt |];
  unfold active_widgets, applicant_widget, location_widget,
    pattern_widget, uniform_widget, size_widget;
  rewrite !elem_of_cons; auto 6.

(** After a rerun the location, pattern, uniform and size boxes of the
    next run show the placeholder, and the applicant box shows its
    default. *)
Lemma form_after_rerun (m : master) (ss ss' : session_state)
    (ws : gmap str name) :
  reset_trigger ss' <> reset_trigger ss ->
  let ws' := end_of_run ss ws in
  selected_applicant m ss' ws'
    = nth (default_applicant_index m ss') (applicant_options m) (Val []) /\
  selected_location m ss' ws' = Val placeholder /\
  selected_pattern m ss' ws' = Val placeholder /\
  selected_uniform m ss' ws' = Val placeholder /\
  selected_size m ss' ws' = Val placeholder.
Proof.
  intros Hrt ws'. repeat split.
  - apply selectbox_default.
    eapply rekeyed_widget_is_fresh; [exact Hrt |].
    unfold active_widgets, applicant_widget. rewrite !elem_of_cons. auto.
  - unfold selected_location, location_options. fresh_box Hrt.
  - unfold selected_pattern, pattern_options. fresh_box Hrt.
  - unfold selected_uniform, uniform_options. fresh_box Hrt.
  - unfold selected_size, size_options. fresh_box Hrt.
Qed.

(** What [in] and [list.index] take for the same name. *)
Lemma name_same_spec (shared : bool) (y x : name) :
  name_same shared y x = true <->
  y = x /\ (x = NaN -> shared = true).
Proof.
  destruct y as [t|], x as [s|]; simpl.
  - change (name_eqb (Val t) (Val s)) with (str_eqb t s).
    rewrite str_eqb_eq. split.
    + intros ->. split; [reflexivity | discriminate].
    + intros [[= ->] _]. reflexivity.
  - split; [discriminate | intros [H _]; discriminate H].
  - split; [discriminate | intros [H _]; discriminate H].
  - split; [intros ->; auto | intros [_ H]; apply H; reflexivity].
Qed.

Lemma name_in_spec (shared : bool) (x : name) (l : list name) :
  name_in shared x l = true <-> x ∈ l /\ (x = NaN -> shared = true).
Proof.
  unfold name_in. rewrite existsb_exists. split.
  - intros (y & Hy & Hs). apply name_same_spec in Hs as [-> Hs].
    split; [apply list_elem_of_In; exact Hy | exact Hs].
  - intros [Hx Hs]. exists x.
    split; [apply list_elem_of_In; exact Hx |].
    apply name_same_spec. auto.
Qed.

Lemma list_index_nth (shared : bool) (x : name) (l : list name) :
  name_in shared x l = true ->
  exists i, list_index shared x l = Some i /\ nth i l (Val []) = x.
Proof.
  induction l as [|y l IH]; simpl; [discriminate |].
  destruct (name_same shared y x) eqn:E; simpl.
  - intros _. apply name_same_spec in E as [-> _]. exists 0%nat. auto.
  - intros H. destruct (IH H) as (i & -> & Hn). exists (S i). auto.
Qed.

Lemma list_index_lt (shared : bool) (x : name) (l : list name) (i : nat) :
  list_index shared x l = Some i -> (i < length l)%nat.
Proof.
  revert i. induction l as [|y l IH]; intros i; simpl; [discriminate |].
  destruct (name_same shared y x); [intros [= <-]; lia |].
  destruct (list_index shared x l) as [j|]; simpl; [| discriminate].
  intros [= <-]. specialize (IH j eq_refl). lia.
Qed.

Lemma default_applicant_index_lt (m : master) (ss : session_state) :
  (default_applicant_index m ss < length (applicant_options m))%nat.
Proof.
  assert (H0 : (0 < length (applicant_options m))%nat).
  { unfold applicant_options. rewrite create_dropdown_options_blank.
    simpl. lia. }
  unfold default_applicant_index.
  destruct (current_applicant ss) as [a|]; [| exact H0].
  destruct (truthy_name a
            && name_in (missing_shared m) a (applicant_options m));
    [| exact H0].
  destruct (list_index (missing_shared m) a (applicant_options m))
    as [i|] eqn:E; [| exact H0].
  simpl. exact (list_index_lt _ _ _ _ E).
Qed.

Lemma selected_applicant_elem (m : master) (ss : session_state)
    (ws : gmap str name) :
  selected_applicant m ss ws ∈ applicant_options m.
Proof. apply selectbox_elem, default_applicant_index_lt. Qed.

Lemma rerun_reset_trigger (m : master) (ss ss' : session_state)
    (ws : gmap str name) (inp : inputs) :
  script m ss ws inp = Ok (Rerun ss') ->
  reset_trigger ss' = (reset_trigger ss + 1)%N.
Proof.
  intros H. apply script_cases in H
    as [H | [(e & _ & _ & H) | [(e & _ & _ & H) | [_ H]]]];
    try discriminate H; injection H as ->; reflexivity.
Qed.

(** The applicant kept for the next run: the one shown after "add",
    none after "finish" or "reset". *)
Lemma rerun_current_applicant (m : master) (ss ss' : session_state)
    (ws : gmap str name) (inp : inputs) :
  script m ss ws inp = Ok (Rerun ss') ->
  current_applicant ss'
  = if add_entry inp && form_filled m ss ws inp
    then Some (selected_applicant m ss ws) else None.
Proof.
  intros Hs.
  destruct (add_entry inp && form_filled m ss ws inp) eqn:Ea.
  { unfold script, add_entry_handler in Hs. rewrite Ea in Hs.
    destruct (make_entry m ss ws inp); simpl in Hs; [| discriminate].
    injection Hs as <-. reflexivity. }
  destruct (finish_entry inp && form_filled m ss ws inp) eqn:Ef.
  { unfold script, finish_entry_handler in Hs. rewrite Ea, Ef in Hs.
    destruct (make_entry m ss ws inp); simpl in Hs; [| discriminate].
    injection Hs as <-. reflexivity. }
  rewrite (script_display m ss ws inp Ea Ef) in Hs.
  destruct (review_displayed ss).
  - destruct (st_dataframe (entries ss)); [| discriminate].
    destruct (reset_button inp); [| discriminate].
    injection Hs as <-. reflexivity.
  - destruct (current_entries_displayed ss); [| discriminate].
    destruct (st_dataframe (entries ss)); discriminate.
Qed.

(** X6. After "add" has appended an entry, the next run shows the form
    cleared but for the applicant: the location, pattern, uniform and
    size boxes are back on the placeholder, and the applicant box shows
    the applicant just used (the placeholder if that name is the empty
    string).  An applicant without a name is shown again exactly when
    the missing value is the same object in the next run. *)
Theorem X6_applicant_prefilled_after_add (m : master)
    (ss ss' : session_state) (ws : gmap str name) (inp : inputs) :
  add_entry inp = true -> form_filled m ss ws inp = true ->
  script m ss ws inp = Ok (Rerun ss') ->
  let ws' := end_of_run ss ws in
  selected_applicant m ss' ws'
    = match selected_applicant m ss ws with
      | Val s => if truthy s then Val s else Val placeholder
      | NaN => if missing_shared m then NaN else Val placeholder
      end /\
  selected_location m ss' ws' = Val placeholder /\
  selected_pattern m ss' ws' = Val placeholder /\
  selected_uniform m ss' ws' = Val placeholder /\
  selected_size m ss' ws' = Val placeholder.
Proof.
  intros Ha Hf Hs ws'.
  assert (Hrt : reset_trigger ss' <> reset_trigger ss).
  { rewrite (rerun_reset_trigger m ss ss' ws inp Hs). lia. }
  destruct (form_after_rerun m ss ss' ws Hrt) as (Happ & Hrest).
  split; [| exact Hrest]. fold ws' in Happ. rewrite Happ.
  pose proof (rerun_current_applicant m ss ss' ws inp Hs) as Hcur.
  rewrite Ha, Hf in Hcur. simpl in Hcur.
  pose proof (selected_applicant_elem m ss ws) as Hin.
  assert (H0 : nth 0 (applicant_options m) (Val []) = Val placeholder).
  { unfold applicant_options. rewrite create_dropdown_options_blank.
    reflexivity. }
  unfold default_applicant_index. rewrite Hcur.
  destruct (selected_applicant m ss ws) as [s|]; simpl.
  - destruct (truthy s); simpl; [| exact H0].
    assert (Hn : name_in (missing_shared m) (Val s) (applicant_options m)
                 = true)
      by (apply name_in_spec; split; [exact Hin | discriminate]).
    rewrite Hn. destruct (list_index_nth _ _ _ Hn) as (i & -> & Hi).
    exact Hi.
  - destruct (missing_shared m) eqn:Esh.
    + assert (Hn : name_in true NaN (applicant_options m) = true)
        by (apply name_in_spec; split; [exact Hin | reflexivity]).
      rewrite Hn. destruct (list_index_nth _ _ _ Hn) as (i & -> & Hi).
      exact Hi.
    + assert (Hn : name_in false NaN (applicant_options m) = false).
      { apply not_true_iff_false. intros H.
        apply name_in_spec in H as [_ H]. discriminate (H eq_refl). }
      rewrite Hn. exact H0.
Qed.

Lemma X6_applicant_prefilled_after_add_witness :
  let m := sample_master in
  let ss := initial_session in
  let ws' := end_of_run ss sample_widgets in
  selected_applicant m sample_added_zero ws'
    = match selected_applicant m ss sample_widgets with
      | Val s => if truthy s then Val s else Val placeholder
      | NaN => if missing_shared m then NaN else Val placeholder
      end /\
  selected_location m sample_added_zero ws' = Val placeholder /\
  selected_pattern m sample_added_zero ws' = Val placeholder /\
  selected_uniform m sample_added_zero ws' = Val placeholder /\
  selected_size m sample_added_zero ws' = Val placeholder.
Proof.
  apply (X6_applicant_prefilled_after_add sample_master initial_session
           sample_added_zero sample_widgets
           (click_add (ascii_str "0") (ascii_str "Suzuki")));
    vm_compute; reflexivity.
Defined.

(** The applicant of the sample data is shown again after "add". *)
Example applicant_kept_after_add :
  selected_applicant sample_master sample_added_zero
    (end_of_run initial_session sample_widgets) = text "Tanaka".
Proof. vm_compute. reflexivity. Qed.

(** X7. After "finish" or "reset" the next run shows the whole form
    cleared: all five select boxes are on the placeholder, the applicant
    box too. *)
Theorem X7_form_cleared_after_finish_or_reset (m : master)
    (ss ss' : session_state) (ws : gmap str name) (inp : inputs) :
  add_entry inp = false ->
  script m ss ws inp = Ok (Rerun ss') ->
  let ws' := end_of_run ss ws in
  selected_applicant m ss' ws' = Val placeholder /\
  selected_location m ss' ws' = Val placeholder /\
  selected_pattern m ss' ws' = Val placeholder /\
  selected_uniform m ss' ws' = Val placeholder /\
  selected_size m ss' ws' = Val placeholder.
Proof.
  intros Ha Hs ws'.
  assert (Hrt : reset_trigger ss' <> reset_trigger ss).
  { rewrite (rerun_reset_trigger m ss ss' ws inp Hs). lia. }
  destruct (form_after_rerun m ss ss' ws Hrt) as (Happ & Hrest).
  split; [| exact Hrest]. fold ws' in Happ. rewrite Happ.
  pose proof (rerun_current_applicant m ss ss' ws inp Hs) as Hcur.
  rewrite Ha in Hcur. simpl in Hcur.
  unfold default_applicant_index. rewrite Hcur.
  unfold applicant_options. rewrite create_dropdown_options_blank.
  reflexivity.
Qed.

Lemma X7_form_cleared_after_finish_or_reset_witness :
  let m := sample_master in
  let ss := initial_session in
  let ws' := end_of_run ss sample_widgets in
  selected_applicant m sample_finished ws' = Val placeholder /\
  selected_location m sample_finished ws' = Val placeholder /\
  selected_pattern m sample_finished ws' = Val placeholder /\
  selected_uniform m sample_finished ws' = Val placeholder /\
  selected_size m sample_finished ws' = Val placeholder.
Proof.
  apply (X7_form_cleared_after_finish_or_reset sample_master
           initial_session sample_finished sample_widgets
           (click_finish [0xFF12%N] (ascii_str "Suzuki")));
    vm_compute; reflexivity.
Defined.

(** ** What a run does to the session *)

(** X8. A run changes the session only through a button.  With no
    button clicked, or with "reset" clicked while the review is not
    shown, the session is left as it is.  Unless "reset" takes effect,
    the entries already there are kept, in order, with at most one entry
    appended, and a review once started stays.  [reset_trigger] moves by
    one exactly when the run ends in a rerun. *)
Theorem X8_session_changes_only_by_buttons (m : master)
    (ss : session_state) (ws : gmap str name) (inp : inputs)
    (o : outcome) :
  script m ss ws inp = Ok o ->
  (add_entry inp = false -> finish_entry inp = false ->
   reset_button inp = false \/ review_displayed ss = false ->
   o = Done ss) /\
  (reset_button inp = false \/ review_displayed ss = false ->
   exists tail,
     entries (outcome_state o) = entries ss ++ tail /\
     (length tail <= 1)%nat /\
     (show_success ss = true -> show_success (outcome_state o) = true)) /\
  reset_trigger (outcome_state o)
  = (reset_trigger ss + match o with Rerun _ => 1 | Done _ => 0 end)%N.
Proof.
  intros Hs. split; [| split].
  - intros Ha Hf Hr.
    rewrite (script_display m ss ws inp) in Hs
      by (rewrite ?Ha, ?Hf; reflexivity).
    destruct (review_displayed ss).
    + destruct Hr as [Hr | Hr]; [| discriminate].
      rewrite Hr in Hs.
      destruct (st_dataframe (entries ss)); congruence.
    + destruct (current_entries_displayed ss); [| congruence].
      destruct (st_dataframe (entries ss)); congruence.
  - intros Hr. destruct (script_cases m ss ws inp o Hs)
      as [-> | [(e & _ & _ & ->) | [(e & _ & _ & ->) | [Hrev ->]]]];
      simpl.
    + exists []. rewrite app_nil_r. simpl. auto.
    + exists [e]. simpl. auto.
    + exists [e]. simpl. auto.
    + exfalso. destruct Hr as [Hr | Hr]; [| congruence].
      revert Hs.
      destruct (add_entry inp && form_filled m ss ws inp) eqn:Ea.
      { unfold script, add_entry_handler. rewrite Ea.
        destruct (make_entry m ss ws inp); simpl; [| discriminate].
        unfold reset_handler. intros E. discriminate E. }
      destruct (finish_entry inp && form_filled m ss ws inp) eqn:Ef.
      { unfold script, finish_entry_handler. rewrite Ea, Ef.
        destruct (make_entry m ss ws inp); simpl; [| discriminate].
        unfold reset_handler. intros E. discriminate E. }
      rewrite (script_display m ss ws inp Ea Ef), Hrev, Hr.
      destruct (st_dataframe (entries ss)); discriminate.
  - apply script_cases in Hs
      as [-> | [(e & _ & _ & ->) | [(e & _ & _ & ->) | [_ ->]]]];
      simpl; lia.
Qed.

Lemma X8_session_changes_only_by_buttons_witness :
  let ss := initial_session in
  let inp := click_add (ascii_str "0") (ascii_str "Suzuki") in
  let o := Rerun sample_added_zero in
  (add_entry inp = false -> finish_entry inp = false ->
   reset_button inp = false \/ review_displayed ss = false ->
   o = Done ss) /\
  (reset_button inp = false \/ review_displayed ss = false ->
   exists tail,
     entries (outcome_state o) = entries ss ++ tail /\
     (length tail <= 1)%nat /\
     (show_success ss = true -> show_success (outcome_state o) = true)) /\
  reset_trigger (outcome_state o)
  = (reset_trigger ss + match o with Rerun _ => 1 | Done _ => 0 end)%N.
Proof.
  apply (X8_session_changes_only_by_buttons sample_master initial_session
           sample_widgets (click_add (ascii_str "0") (ascii_str "Suzuki"))
           (Rerun sample_added_zero)).
  vm_compute. reflexivity.
Defined.

Lemma reachable_show_success_entries (m : master) (ss : session_state) :
  reachable m ss -> show_success ss = true -> entries ss <> [].
Proof.
  intros Hr. induction Hr as [|ss ws inp o Hr IH Hs]; [discriminate |].
  apply script_cases in Hs
    as [-> | [(e & _ & _ & ->) | [(e & _ & _ & ->) | [_ ->]]]];
    simpl; try exact IH; try discriminate.
  - intros _ Hnil. apply app_eq_nil in Hnil as [_ Hnil]. discriminate.
  - intros _ Hnil. apply app_eq_nil in Hnil as [_ Hnil]. discriminate.
Qed.

(** X9. In a reachable session under review, a click on "reset" takes
    effect exactly when the review table above the button can be shown,
    that is when every quantity held is below 2^64: then the run ends in
    a rerun on a session with no entries, no review and no remembered
    applicant, which is reachable again.  When some quantity held is
    2^64 or more, [st.dataframe] raises before the button is reached:
    the run raises and the session stays as it is. *)
Theorem X9_reset_from_review (m : master) (ss : session_state)
    (ws : gmap str name) (inp : inputs) :
  reachable m ss -> show_success ss = true ->
  add_entry inp = false -> finish_entry inp = false ->
  reset_button inp = true ->
  (quantities_fit (entries ss) ->
   exists ss',
     script m ss ws inp = Ok (Rerun ss') /\
     entries ss' = [] /\ show_success ss' = false /\
     phase_of ss' = COLLECTING /\ current_applicant ss' = None /\
     reachable m ss') /\
  (~ quantities_fit (entries ss) ->
   script m ss ws inp = Raise DataframeError).
Proof.
  intros Hr Hs Ha Hf Hb.
  assert (Hrev : review_displayed ss = true).
  { unfold review_displayed. rewrite Hs. simpl.
    apply negb_true_iff, bool_decide_eq_false.
    exact (reachable_show_success_entries m ss Hr Hs). }
  assert (E : script m ss ws inp
              = match st_dataframe (entries ss) with
                | Raise x => Raise x
                | Ok _ => Ok (reset_handler ss)
                end).
  { rewrite (script_display m ss ws inp)
      by (rewrite ?Ha, ?Hf; reflexivity).
    rewrite Hrev, Hb. reflexivity. }
  split.
  - intros Hfit. apply st_dataframe_fit in Hfit. rewrite Hfit in E.
    eexists. split; [exact E |]. repeat split.
    exact (reachable_run m ss ws inp _ Hr E).
  - intros Hbig. rewrite E.
    destruct (st_dataframe (entries ss)) as [[]|x] eqn:Ed.
    + exfalso. apply Hbig, st_dataframe_fit. exact Ed.
    + apply st_dataframe_raise in Ed as [-> _]. reflexivity.
Qed.

Lemma X9_reset_from_review_witness :
  exists ss',
    script sample_master sample_finished sample_widgets click_reset
      = Ok (Rerun ss') /\
    entries ss' = [] /\ show_success ss' = false /\
    phase_of ss' = COLLECTING /\ current_applicant ss' = None /\
    reachable sample_master ss'.
Proof.
  apply (proj1 (X9_reset_from_review sample_master sample_finished
                  sample_widgets click_reset
                  sample_finished_reachable eq_refl eq_refl eq_refl
                  eq_refl)).
  constructor; [vm_compute; reflexivity | constructor].
Defined.

(** With the quantity 2^64 sent, the review cannot be left: "reset"
    raises, and so does a run without any click. *)
Example reset_out_of_reach_with_huge_quantity :
  reachable sample_master sample_finished_huge /\
  map Entry.quantity (entries sample_finished_huge) = [(2 ^ 64)%Z] /\
  script sample_master sample_finished_huge ∅ click_reset
    = Raise DataframeError /\
  script sample_master sample_finished_huge ∅ no_click
    = Raise DataframeError.
Proof.
  split; [exact sample_finished_huge_reachable |].
  repeat split; vm_compute; reflexivity.
Qed.

(** X10. In every reachable session the guard of the review holds
    exactly when the request has been sent (the test for entries in it
    never decides), and exactly one of the two table guards holds when
    there are entries (the review, or else the entries so far), none
    when there are no entries.  The table whose guard holds is shown
    when every quantity held is below 2^64; when one is not,
    [st.dataframe] raises there. *)
Theorem X10_one_table_shown (m : master) (ss : session_state)
    (inp : inputs) :
  reachable m ss ->
  review_displayed ss = show_success ss /\
  xorb (review_displayed ss) (current_entries_displayed ss)
  = negb (bool_decide (entries ss = [])) /\
  (quantities_fit (entries ss) ->
   review_part ss inp
   = Ok (if show_success ss && reset_button inp
         then Some (reset_handler ss) else None) /\
   current_entries_part ss = Ok tt) /\
  (~ quantities_fit (entries ss) ->
   if show_success ss
   then review_part ss inp = Raise DataframeError
   else current_entries_part ss = Raise DataframeError).
Proof.
  intros Hr.
  pose proof (reachable_show_success_entries m ss Hr) as H.
  assert (Hrev : review_displayed ss = show_success ss).
  { unfold review_displayed. destruct (show_success ss); simpl;
      [| reflexivity].
    rewrite (bool_decide_eq_false_2 _ (H eq_refl)). reflexivity. }
  split; [exact Hrev |]. split; [| split].
  - rewrite Hrev. unfold current_entries_displayed.
    destruct (show_success ss); simpl.
    + rewrite (bool_decide_eq_false_2 _ (H eq_refl)). reflexivity.
    + rewrite andb_true_r. reflexivity.
  - intros Hfit. rewrite <- Hrev. apply display_fit. exact Hfit.
  - intros Hbig.
    assert (Hne : entries ss <> []).
    { intros Hnil. apply Hbig. unfold quantities_fit. rewrite Hnil.
      constructor. }
    assert (Hd : st_dataframe (entries ss) = Raise DataframeError).
    { destruct (st_dataframe (entries ss)) as [[]|x] eqn:Ed.
      - exfalso. apply Hbig, st_dataframe_fit. exact Ed.
      - apply st_dataframe_raise in Ed as [-> _]. reflexivity. }
    unfold review_part, current_entries_part. rewrite Hrev.
    unfold current_entries_displayed.
    rewrite (bool_decide_eq_false_2 _ Hne), Hd.
    destruct (show_success ss); reflexivity.
Qed.

Lemma X10_one_table_shown_witness :
  review_displayed sample_finished = show_success sample_finished /\
  xorb (review_displayed sample_finished)
    (current_entries_displayed sample_finished)
  = negb (bool_decide (entries sample_finished = [])) /\
  (quantities_fit (entries sample_finished) ->
   review_part sample_finished no_click
   = Ok (if show_success sample_finished && reset_button no_click
         then Some (reset_handler sample_finished) else None) /\
   current_entries_part sample_finished = Ok tt) /\
  (~ quantities_fit (entries sample_finished) ->
   if show_success sample_finished
   then review_part sample_finished no_click = Raise DataframeError
   else current_entries_part sample_finished = Raise DataframeError).
Proof.
  apply (X10_one_table_shown sample_master sample_finished no_click).
  exact sample_finished_reachable.
Defined.

(** ** What every entry holds *)

Lemma resolved_of_option {R : Type} (df : list R) (id_col : R -> ident)
    (name_col : R -> name) (v : name) :
  v ∈ create_dropdown_options df id_col name_col true ->
  v <> Val placeholder ->
  resolved df id_col name_col v
    (get_selected_id df id_col name_col (Some v)).
Proof.
  intros Hv Hph. split; [exact Hph |]. split.
  - apply options_elem in Hv as [Hv | Hrow]; [contradiction | exact Hrow].
  - destruct v as [s|]; [| apply get_selected_id_nan].
    exact (selected_row df id_col name_col s Hv Hph).
Qed.

Lemma resolved_mono {R : Type} (df df' : list R) (id_col : R -> ident)
    (name_col : R -> name) (v : name) (i : option ident) :
  (forall r, r ∈ df -> r ∈ df') ->
  resolved df id_col name_col v i -> resolved df' id_col name_col v i.
Proof.
  intros Hsub (Hph & (r & Hr & Hn) & Hi). split; [exact Hph |]. split.
  - exists r. auto.
  - destruct v as [s|]; [| exact Hi].
    destruct Hi as (r' & Hr' & Hn' & Hi). exists r'. auto.
Qed.

Lemma uniform_filtered_sub (m : master) (ss : session_state)
    (ws : gmap str name) (r : Uniform.row) :
  r ∈ uniform_filtered m ss ws -> r ∈ uniforms m.
Proof. intros H. apply uniform_filtered_elem in H. tauto. Qed.

Lemma size_filtered_sub (m : master) (ss : session_state)
    (ws : gmap str name) (r : Size.row) :
  r ∈ size_filtered m ss ws -> r ∈ sizes m.
Proof. intros H. apply size_filtered_elem in H. tauto. Qed.

Lemma make_entry_resolved (m : master) (ss : session_state)
    (ws : gmap str name) (inp : inputs) (e : Entry.t) :
  form_filled m ss ws inp = true -> make_entry m ss ws inp = Ok e ->
  entry_resolved m e.
Proof.
  intros Hf He. unfold form_filled in Hf.
  apply all_fields_filled_spec in Hf as (Ha & Hl & Hp & Hu & Hs & _).
  unfold make_entry in He.
  destruct (py_int (quantity_normalized (quantity_input inp)));
    simpl in He; [| discriminate].
  injection He as <-. unfold entry_resolved. simpl.
  split; [| split; [| split; [| split]]].
  - apply resolved_of_option; [apply selected_applicant_elem | exact Ha].
  - apply resolved_of_option; [| exact Hl].
    apply selectbox_elem. unfold location_options.
    rewrite create_dropdown_options_blank. simpl. lia.
  - apply resolved_of_option; [| exact Hp].
    apply selectbox_elem. unfold pattern_options.
    rewrite create_dropdown_options_blank. simpl. lia.
  - apply (resolved_mono (uniform_filtered m ss ws));
      [apply uniform_filtered_sub |].
    apply resolved_of_option; [| exact Hu].
    apply selectbox_elem. unfold uniform_options.
    rewrite create_dropdown_options_blank. simpl. lia.
  - apply (resolved_mono (size_filtered m ss ws));
      [apply size_filtered_sub |].
    apply resolved_of_option; [| exact Hs].
    apply selectbox_elem. unfold size_options.
    rewrite create_dropdown_options_blank. simpl. lia.
Qed.

(** X11. In every entry of every reachable session, each of the five
    names (applicant, location, pattern, uniform, size) is the name cell
    of a row of its master table, and none is the placeholder.  Where
    the name is text, the identifier stored beside it is present and is
    the identifier cell of a row with that name; where the name is the
    missing value of an empty name cell, no identifier is stored. *)
Theorem X11_entries_resolved (m : master) (ss : session_state) :
  reachable m ss -> Forall (entry_resolved m) (entries ss).
Proof.
  apply entries_invariant. apply make_entry_resolved.
Qed.

Lemma X11_entries_resolved_witness :
  Forall (entry_resolved sample_master) (entries sample_finished).
Proof.
  apply (X11_entries_resolved sample_master sample_finished).
  exact sample_finished_reachable.
Defined.

(** ** [strip] and the user name *)

Lemma lstrip_head (s : str) (c : char) (s' : str) :
  lstrip s = c :: s' -> isspace_char c = false.
Proof.
  induction s as [|a s IH]; simpl; [discriminate |].
  destruct (isspace_char a) eqn:E; [exact IH |].
  intros [= <- _]. exact E.
Qed.

Lemma lstrip_snoc (s : str) (c : char) :
  isspace_char c = false -> lstrip (s ++ [c]) = lstrip s ++ [c].
Proof.
  intros Hc. induction s as [|a s IH]; simpl.
  - rewrite Hc. reflexivity.
  - destruct (isspace_char a); [exact IH | reflexivity].
Qed.

(** What [strip] returns, when it is not empty, starts and ends with a
    character that is not white space. *)
Lemma str_strip_trimmed (s : str) :
  str_strip s <> [] -> trimmed_nonempty (str_strip s).
Proof.
  unfold str_strip, rstrip. intros Hne.
  destruct (lstrip s) as [|h t] eqn:Et; [simpl in Hne; congruence |].
  pose proof (lstrip_head s h t Et) as Hh.
  simpl rev in *. rewrite (lstrip_snoc (rev t) h Hh) in *.
  rewrite rev_app_distr in *. simpl in *.
  split; [exists h; eexists; split; [reflexivity | exact Hh] |].
  destruct (lstrip (rev t)) as [|c u] eqn:Eu.
  - exists [], h. simpl. auto.
  - pose proof (lstrip_head (rev t) c u Eu) as Hc.
    exists (h :: rev u), c. simpl. auto.
Qed.

Lemma str_strip_idempotent (s : str) : str_strip (str_strip s) = str_strip s.
Proof.
  destruct (str_strip s) as [|c0 s0] eqn:E; [reflexivity |].
  assert (Hne : str_strip s <> []) by (rewrite E; discriminate).
  destruct (str_strip_trimmed s Hne) as [(c & s' & Hc & Hsp) (t & d & Hd & Hdsp)].
  rewrite E in Hc, Hd.
  unfold str_strip, rstrip.
  assert (H1 : lstrip (c0 :: s0) = c0 :: s0).
  { injection Hc as -> ->. simpl. rewrite Hsp. reflexivity. }
  rewrite H1, Hd, rev_app_distr. simpl. rewrite Hdsp.
  simpl. rewrite rev_involutive. reflexivity.
Qed.

(** X12. In every entry of every reachable session the user name is not
    empty and neither starts nor ends with white space; it is the text
    typed with the white space around it removed, and removing it again
    changes nothing. *)
Theorem X12_user_name_trimmed (m : master) (ss : session_state) :
  reachable m ss ->
  Forall (fun e => trimmed_nonempty (Entry.user_name e) /\
                   str_strip (Entry.user_name e) = Entry.user_name e)
    (entries ss).
Proof.
  apply entries_invariant. intros ss0 ws inp e Hf He.
  unfold form_filled in Hf.
  apply all_fields_filled_spec in Hf as (_ & _ & _ & _ & _ & _ & Hn).
  apply make_entry_Ok in He as (_ & _ & _ & _ & _ & ->).
  split; [apply str_strip_trimmed; exact Hn | apply str_strip_idempotent].
Qed.

Lemma X12_user_name_trimmed_witness :
  Forall (fun e => trimmed_nonempty (Entry.user_name e) /\
                   str_strip (Entry.user_name e) = Entry.user_name e)
    (entries sample_finished).
Proof.
  apply (X12_user_name_trimmed sample_master sample_finished).
  exact sample_finished_reachable.
Defined.


(** ** The quantity *)

Lemma normalize_digits_nil : normalize_digits [] = [].
Proof. reflexivity. Qed.

Lemma quantity_normalized_eq (q : str) :
  quantity_normalized q = normalize_digits q.
Proof. destruct q; reflexivity. Qed.

(** [int] and [str.isdigit] see a full-width digit as they see its
    half-width form. *)
Lemma halfwidth_same_class (ch : char) :
  is_fullwidth_digit ch = true ->
  to_ascii_decimal_and_space (ch - 0xFEE0)%N
    = to_ascii_decimal_and_space ch /\
  isdigit_char (ch - 0xFEE0)%N = isdigit_char ch.
Proof.
  intros H. apply is_fullwidth_digit_spec, fullwidth_digit_cases in H.
  simpl in H.
  repeat (destruct H as [<- | H]; [vm_compute; auto |]).
  contradiction.
Qed.

Lemma normalize_digits_same_for_int (s : str) :
  map to_ascii_decimal_and_space (normalize_digits s)
  = map to_ascii_decimal_and_space s.
Proof.
  induction s as [|ch s IH]; [reflexivity |].
  rewrite normalize_digits_cons. simpl. rewrite IH. f_equal.
  destruct (is_fullwidth_digit ch) eqn:E; [| reflexivity].
  apply halfwidth_same_class. exact E.
Qed.

Lemma normalize_digits_same_class (s : str) :
  forallb isdigit_char (normalize_digits s) = forallb isdigit_char s.
Proof.
  induction s as [|ch s IH]; [reflexivity |].
  rewrite normalize_digits_cons. simpl. rewrite IH. f_equal.
  destruct (is_fullwidth_digit ch) eqn:E; [| reflexivity].
  apply halfwidth_same_class. exact E.
Qed.

Lemma py_int_normalized (q : str) :
  py_int (quantity_normalized q) = py_int q.
Proof.
  rewrite quantity_normalized_eq. unfold py_int.
  rewrite normalize_digits_same_for_int. reflexivity.
Qed.

(** X13. The normalisation is invisible to the validation and to the
    parse: a quantity is valid exactly when the text typed passes
    [str.isdigit] as it is, and [int] returns on the normalised quantity
    what it returns on the text typed. *)
Theorem X13_normalization_invisible (q : str) :
  is_quantity_valid q = str_isdigit q /\
  py_int (quantity_normalized q) = py_int q.
Proof.
  split; [| apply py_int_normalized].
  unfold is_quantity_valid. rewrite quantity_normalized_eq.
  destruct q as [|ch q]; [reflexivity |].
  rewrite normalize_digits_cons.
  unfold str_isdigit. rewrite <- normalize_digits_cons.
  rewrite normalize_digits_same_class, normalize_digits_cons.
  unfold str_eqb. rewrite bool_decide_eq_false_2 by discriminate.
  simpl. apply andb_true_r.
Qed.

Lemma normalize_digits_app (s t : str) :
  normalize_digits (s ++ t) = normalize_digits s ++ normalize_digits t.
Proof.
  unfold normalize_digits. rewrite map_app, concat_app. reflexivity.
Qed.

Lemma normalize_digits_fixed (s : str) :
  Forall (fun c => is_fullwidth_digit c = false) s ->
  normalize_digits s = s.
Proof.
  induction 1 as [|c s Hc Hs IH]; [reflexivity |].
  rewrite normalize_digits_cons, Hc, IH. reflexivity.
Qed.

Lemma normalize_digits_no_fullwidth (s : str) :
  Forall (fun c => is_fullwidth_digit c = false) (normalize_digits s).
Proof.
  induction s as [|c s IH]; [constructor |].
  rewrite normalize_digits_cons. constructor; [| exact IH].
  destruct (is_fullwidth_digit c) eqn:E; [| exact E].
  apply is_fullwidth_digit_spec in E.
  unfold is_fullwidth_digit. apply andb_false_iff. left.
  apply N.leb_gt. lia.
Qed.

(** X14. [normalize_digits] leaves no full-width digit in its result,
    leaves a string without full-width digits as it is, is idempotent,
    and works piece by piece: the normalisation of a concatenation is the
    concatenation of the normalisations. *)
Theorem X14_normalize_digits_idempotent (s t : str) :
  Forall (fun c => ~ (0xFF10 <= c <= 0xFF19)%N) (normalize_digits s) /\
  (Forall (fun c => ~ (0xFF10 <= c <= 0xFF19)%N) s ->
   normalize_digits s = s) /\
  normalize_digits (normalize_digits s) = normalize_digits s /\
  normalize_digits (s ++ t) = normalize_digits s ++ normalize_digits t.
Proof.
  split; [| split; [| split]].
  - eapply Forall_impl; [apply normalize_digits_no_fullwidth |].
    intros c Hc Hr. apply is_fullwidth_digit_spec in Hr. congruence.
  - intros H. apply normalize_digits_fixed.
    eapply Forall_impl; [exact H |]. intros c Hc. simpl in Hc.
    destruct (is_fullwidth_digit c) eqn:E; [| reflexivity].
    apply is_fullwidth_digit_spec in E. contradiction.
  - apply normalize_digits_fixed, normalize_digits_no_fullwidth.
  - apply normalize_digits_app.
Qed.

(** ** When a run raises *)

Lemma add_entry_handler_raise (m : master) (ss : session_state)
    (ws : gmap str name) (inp : inputs) (e : exn) :
  add_entry_handler m ss ws inp = Raise e <->
  py_int (quantity_normalized (quantity_input inp)) = Raise e.
Proof.
  unfold add_entry_handler, make_entry.
  destruct (py_int (quantity_normalized (quantity_input inp))); simpl;
    split; intros H; try discriminate H; injection H as ->; reflexivity.
Qed.

Lemma finish_entry_handler_raise (m : master) (ss : session_state)
    (ws : gmap str name) (inp : inputs) (e : exn) :
  finish_entry_handler m ss ws inp = Raise e <->
  py_int (quantity_normalized (quantity_input inp)) = Raise e.
Proof.
  unfold finish_entry_handler, make_entry.
  destruct (py_int (quantity_normalized (quantity_input inp))); simpl;
    split; intros H; try discriminate H; injection H as ->; reflexivity.
Qed.

(** What the display part of a run raises. *)
Lemma display_raise (m : master) (ss : session_state)
    (ws : gmap str name) (inp : inputs) (e : exn) :
  add_entry inp && form_filled m ss ws inp = false ->
  finish_entry inp && form_filled m ss ws inp = false ->
  script m ss ws inp = Raise e <->
  ~ quantities_fit (entries ss) /\ e = DataframeError.
Proof.
  intros Ha Hf. rewrite (script_display m ss ws inp Ha Hf).
  unfold review_displayed, current_entries_displayed.
  destruct (decide (entries ss = [])) as [Hnil | Hne].
  - rewrite (bool_decide_eq_true_2 _ Hnil).
    rewrite andb_false_r. simpl.
    split; [discriminate |]. intros [H _]. exfalso. apply H.
    unfold quantities_fit. rewrite Hnil. constructor.
  - rewrite (bool_decide_eq_false_2 _ Hne). simpl.
    assert (Hd : st_dataframe (entries ss) = Raise e <->
                 ~ quantities_fit (entries ss) /\ e = DataframeError)
      by (rewrite st_dataframe_raise; tauto).
    destruct (show_success ss); simpl;
      destruct (st_dataframe (entries ss)) as [[]|x] eqn:Ed;
      try (rewrite <- Hd; split; [intros [= ->] | intros [= ->]];
           reflexivity);
      rewrite <- Hd;
      try (destruct (reset_button inp)); split; discriminate.
Qed.

(** X15. A run raises in two places and nowhere else.  When "add" or
    "finish" is clicked on a complete form, it raises exactly when [int]
    raises on the normalised quantity, and raises what [int] raised.
    When no handler is taken (no such click, or the form is incomplete),
    it raises exactly when some quantity held is 2^64 or more: then a
    table is due, and [st.dataframe] raises on it. *)
Theorem X15_when_a_run_raises (m : master) (ss : session_state)
    (ws : gmap str name) (inp : inputs) (e : exn) :
  script m ss ws inp = Raise e <->
  ((add_entry inp = true \/ finish_entry inp = true) /\
   form_filled m ss ws inp = true /\
   py_int (quantity_normalized (quantity_input inp)) = Raise e) \/
  (((add_entry inp = false /\ finish_entry inp = false) \/
    form_filled m ss ws inp = false) /\
   ~ quantities_fit (entries ss) /\ e = DataframeError).
Proof.
  destruct (form_filled m ss ws inp) eqn:Eff.
  - destruct (add_entry inp) eqn:Ea.
    + unfold script. rewrite Ea, Eff. simpl.
      rewrite add_entry_handler_raise. split; [tauto |].
      intros [H | [[[H _] | H] _]]; [tauto | discriminate H ..].
    + destruct (finish_entry inp) eqn:Ef.
      * unfold script. rewrite Ea, Ef, Eff. simpl.
        rewrite finish_entry_handler_raise. split; [tauto |].
        intros [H | [[[_ H] | H] _]]; [tauto | discriminate H ..].
      * rewrite (display_raise m ss ws inp e)
          by (rewrite ?Ea, ?Ef; reflexivity).
        split; [tauto |].
        intros [([H | H] & _) | (_ & H)];
          [discriminate H | discriminate H | exact H].
  - rewrite (display_raise m ss ws inp e)
      by (rewrite Eff; apply andb_false_r).
    split; [tauto |].
    intros [(_ & H & _) | (_ & H)]; [discriminate H | exact H].
Qed.

(** Both places at the sample data: the quantity ["²"] on "add", and a
    run on a session that holds the quantity 2^64. *)
Example raises_at_both_places :
  script sample_master initial_session sample_widgets
    (click_add [0xB2%N] (ascii_str "Suzuki")) = Raise ValueError /\
  script sample_master sample_finished_huge ∅ no_click
    = Raise DataframeError.
Proof. split; vm_compute; reflexivity. Qed.

(** ** Warnings *)

(** X16. A warning is shown only while the buttons are disabled.  No
    warning is shown exactly when the form is complete, or when the
    applicant and the location are on the placeholder and the quantity
    and the user name are empty (so a form in which only pattern, uniform
    or size have been chosen is incomplete without a warning). *)
Theorem X16_warning_shown_iff
    (selected_applicant selected_location selected_pattern
     selected_uniform selected_size : name)
    (quantity_input user_name_input : str) :
  let filled :=
    all_fields_filled selected_applicant selected_location
      selected_pattern selected_uniform selected_size quantity_input
      user_name_input in
  let shown :=
    warning_message selected_applicant selected_location selected_pattern
      selected_uniform selected_size quantity_input user_name_input in
  (forall w, shown = Some w -> filled = false) /\
  (shown = None <->
   filled = true \/
   (selected_applicant = Val placeholder /\
    selected_location = Val placeholder /\
    quantity_input = [] /\ user_name_input = [])) /\
  (shown = Some quantity_warning <->
   quantity_input <> [] /\ is_quantity_valid quantity_input = false).
Proof.
  intros filled shown.
  assert (Hfq : filled = true -> is_quantity_valid quantity_input = true).
  { intros H. apply all_fields_filled_spec in H. tauto. }
  assert (Ht : forall s, truthy s = true <-> s <> []).
  { intros s. unfold truthy. apply str_eqb_neq. }
  assert (Ht' : forall s, truthy s = false <-> s = []).
  { intros s. unfold truthy. rewrite negb_false_iff. apply str_eqb_eq. }
  assert (Hp : forall a : name,
                 negb (name_eqb a (Val placeholder)) = false
                 <-> a = Val placeholder).
  { intros a. rewrite negb_false_iff. apply name_eqb_val. }
  unfold shown, warning_message. fold filled.
  destruct (truthy quantity_input) eqn:Eq,
           (is_quantity_valid quantity_input) eqn:Ev; simpl.
  - (* typed and valid *)
    apply Ht in Eq.
    destruct filled eqn:Efl; simpl.
    + split; [discriminate |]. split; [tauto |].
      split; [discriminate | intros [_ H]; discriminate].
    + rewrite !orb_true_r. split; [auto |].
      split; [split; [discriminate | intros [H | (_ & _ & H & _)];
                                     [discriminate | contradiction]] |].
      split; [discriminate | intros [_ H]; discriminate].
  - (* typed and invalid *)
    apply Ht in Eq.
    assert (Efl : filled = false).
    { destruct filled; [specialize (Hfq eq_refl); discriminate | auto]. }
    split; [auto |].
    split; [split; [discriminate |
                    intros [H | (_ & _ & H & _)]; [congruence | contradiction]] |].
    split; auto.
  - (* nothing typed and valid: cannot happen, treated like the rest *)
    apply Ht' in Eq.
    destruct filled eqn:Efl; simpl.
    + split; [discriminate |]. split; [tauto |].
      split; [discriminate | intros [H _]; contradiction].
    + destruct (negb (name_eqb selected_applicant (Val placeholder))) eqn:E1,
               (negb (name_eqb selected_location (Val placeholder))) eqn:E2,
               (truthy user_name_input) eqn:E3; simpl;
        rewrite ?Hp in E1, E2; rewrite ?Ht' in E3;
        (split; [auto |]);
        (split; [| split; [discriminate | intros [H _]; contradiction]]);
        try (split; [discriminate |
                     intros [H | (H1 & H2 & _ & H3)]; [discriminate |]];
             try (apply Hp in H1; congruence);
             try (apply Hp in H2; congruence);
             try (apply Ht' in H3; congruence)).
      split; [auto | reflexivity].
  - (* nothing typed *)
    apply Ht' in Eq.
    assert (Efl : filled = false).
    { destruct filled; [specialize (Hfq eq_refl); discriminate | auto]. }
    rewrite Efl. simpl.
    destruct (negb (name_eqb selected_applicant (Val placeholder))) eqn:E1,
             (negb (name_eqb selected_location (Val placeholder))) eqn:E2,
             (truthy user_name_input) eqn:E3; simpl;
      rewrite ?Hp in E1, E2; rewrite ?Ht' in E3;
      (split; [auto |]);
      (split; [| split; [discriminate | intros [H _]; contradiction]]);
      try (split; [discriminate |
                   intros [H | (H1 & H2 & _ & H3)]; [discriminate |]];
           try (apply Hp in H1; congruence);
           try (apply Ht' in H3; congruence)).
    split; [auto | reflexivity].
Qed.


(** ** When [int] refuses a valid quantity *)

Lemma read_digits_question_mark (prev : bool) (s : str) :
  63%N ∈ s -> read_digits prev s = None.
Proof.
  revert prev. induction s as [|c s IH]; intros prev H.
  - apply elem_of_nil in H. contradiction.
  - apply elem_of_cons in H as [<- | H]; [reflexivity |].
    simpl. destruct (is_ascii_digit c).
    + rewrite (IH true H). reflexivity.
    + destruct (c =? 95)%N; [| reflexivity].
      destruct prev; [apply IH; exact H | reflexivity].
Qed.

Lemma skip_ascii_space_keeps (c : char) (s : str) :
  is_ascii_space c = false -> c ∈ s -> c ∈ skip_ascii_space s.
Proof.
  intros Hc. induction s as [|a s IH]; intros H; [exact H |].
  simpl. destruct (is_ascii_space a) eqn:E; [| exact H].
  apply elem_of_cons in H as [-> | H]; [congruence | auto].
Qed.

Lemma read_sign_keeps (t : str) :
  63%N ∈ t -> 63%N ∈ snd (read_sign t).
Proof.
  destruct t as [|c b]; [auto |]. simpl. intros H.
  destruct (c =? 45)%N eqn:E1.
  { apply N.eqb_eq in E1. subst c.
    apply elem_of_cons in H as [H | H]; [discriminate | exact H]. }
  destruct (c =? 43)%N eqn:E2; [| exact H].
  apply N.eqb_eq in E2. subst c.
  apply elem_of_cons in H as [H | H]; [discriminate | exact H].
Qed.

Lemma elem_rev (c : char) (s : str) : c ∈ s -> c ∈ rev s.
Proof. rewrite !list_elem_of_In. apply in_rev. Qed.

(** A string with a character that [int] cannot place is refused. *)
Lemma py_int_question_mark (s : str) :
  63%N ∈ map to_ascii_decimal_and_space s -> py_int s = Raise ValueError.
Proof.
  intros H. unfold py_int.
  set (t := rev (skip_ascii_space (rev (skip_ascii_space
                (map to_ascii_decimal_and_space s))))).
  assert (Ht : 63%N ∈ t).
  { unfold t. apply elem_rev, skip_ascii_space_keeps; [reflexivity |].
    apply elem_rev, skip_ascii_space_keeps; [reflexivity |].
    exact H. }
  apply read_sign_keeps in Ht.
  destruct (read_sign t) as [neg body]. simpl in Ht.
  rewrite (read_digits_question_mark false body Ht). reflexivity.
Qed.

(** A digit that is not decimal becomes a character [int] cannot
    place. *)
Lemma digit_not_decimal_to_question_mark (c : char) :
  isdigit_char c = true -> isdecimal_char c = false ->
  to_ascii_decimal_and_space c = 63%N.
Proof.
  intros Hd Hn. unfold isdigit_char in Hd. rewrite Hn in Hd.
  rewrite orb_false_l in Hd.
  assert (Hge : (c <? 128)%N = false).
  { destruct (c <? 128)%N eqn:E; [| reflexivity].
    apply N.ltb_lt in E.
    rewrite (in_ranges_above digit_only_ranges c 128%N) in Hd;
      [discriminate | vm_compute; reflexivity | exact E]. }
  assert (Hsp : isspace_char c = false).
  { apply (ranges_disjoint digit_only_ranges space_ranges c);
      [vm_compute; reflexivity | exact Hd]. }
  unfold to_ascii_decimal_and_space. rewrite Hge, Hsp.
  unfold decimal_value, isdecimal_char, in_ranges in *.
  destruct (find (in_range c) decimal_ranges) as [r|] eqn:E;
    [| reflexivity].
  apply find_some in E as [Hin Hr].
  assert (existsb (in_range c) decimal_ranges = true)
    by (apply existsb_exists; eauto).
  congruence.
Qed.

(** What [int] returns on a non-empty string of decimal digits. *)
Lemma py_int_decimal_eq (s : str) :
  s <> [] -> Forall (fun c => isdecimal_char c = true) s ->
  py_int s =
  if (int_max_str_digits <? length s)%nat then Raise ValueError
  else Ok (digits_value
             (map (fun c => (to_ascii_decimal_and_space c - 48)%N) s)).
Proof.
  intros Hne Hs. unfold py_int.
  set (t := map to_ascii_decimal_and_space s).
  assert (Ht : Forall (fun c => is_ascii_digit c = true) t).
  { unfold t. apply Forall_forall. intros c Hc.
    apply list_elem_of_In, in_map_iff in Hc as (c0 & <- & Hc0).
    apply isdecimal_to_ascii_digit.
    rewrite Forall_forall in Hs. apply Hs, list_elem_of_In, Hc0. }
  assert (Htne : t <> []).
  { unfold t. destruct s; [congruence | discriminate]. }
  rewrite (skip_ascii_space_digits t Ht).
  rewrite (skip_ascii_space_digits (rev t)) by (apply Forall_rev, Ht).
  rewrite rev_involutive.
  assert (Hsign : read_sign t = (false, t)).
  { destruct t as [|c b]; [reflexivity |]. simpl.
    apply Forall_cons_1 in Ht as [Hc _]. apply in_range_spec in Hc.
    replace (c =? 45)%N with false by (symmetry; apply N.eqb_neq; lia).
    replace (c =? 43)%N with false by (symmetry; apply N.eqb_neq; lia).
    reflexivity. }
  rewrite Hsign.
  destruct (read_digits_all t Ht) as [_ Hrd]. rewrite (Hrd Htne).
  unfold t. rewrite !length_map, map_map. reflexivity.
Qed.

(** X17. On a quantity that passes the digit check, [int] raises exactly
    when the normalised quantity holds a digit that is not a decimal
    digit (a superscript, a circled digit, ...) or has more than 4300
    digits; otherwise it returns a non-negative number. *)
Theorem X17_int_refuses_valid_quantity_iff (q : str) :
  is_quantity_valid q = true ->
  (py_int (quantity_normalized q) = Raise ValueError <->
   (exists c, c ∈ quantity_normalized q /\ isdecimal_char c = false) \/
   (int_max_str_digits < length (quantity_normalized q))%nat) /\
  (py_int (quantity_normalized q) <> Raise ValueError ->
   exists z, py_int (quantity_normalized q) = Ok z /\ (0 <= z)%Z).
Proof.
  intros Hv. apply is_quantity_valid_spec in Hv as [Hne Hd].
  set (s := quantity_normalized q) in *.
  destruct (decide (Forall (fun c => isdecimal_char c = true) s))
    as [Hdec | Hnd].
  - rewrite (py_int_decimal_eq s Hne Hdec).
    destruct (int_max_str_digits <? length s)%nat eqn:E.
    + apply Nat.ltb_lt in E. split; [tauto | congruence].
    + apply Nat.ltb_ge in E. split.
      * split; [discriminate |].
        intros [(c & Hc & Hn) | Hl]; [| lia].
        rewrite Forall_forall in Hdec. specialize (Hdec c Hc). congruence.
      * intros _. eexists. split; [reflexivity |].
        apply digits_value_nonneg.
  - apply not_Forall_Exists in Hnd; [| intros c; apply _].
    apply Exists_exists in Hnd as (c & Hc & Hn).
    apply not_true_is_false in Hn.
    assert (Hr : py_int s = Raise ValueError).
    { apply py_int_question_mark.
      rewrite <- (digit_not_decimal_to_question_mark c);
        [| rewrite Forall_forall in Hd; exact (Hd c Hc) | exact Hn].
      apply list_elem_of_In, in_map, list_elem_of_In, Hc. }
    rewrite Hr. split; [| congruence].
    split; [intros _; left; eauto | reflexivity].
Qed.

Lemma X17_int_refuses_valid_quantity_iff_witness :
  (py_int (quantity_normalized [0x2460%N]) = Raise ValueError <->
   (exists c, c ∈ quantity_normalized [0x2460%N] /\
              isdecimal_char c = false) \/
   (int_max_str_digits < length (quantity_normalized [0x2460%N]))%nat) /\
  (py_int (quantity_normalized [0x2460%N]) <> Raise ValueError ->
   exists z, py_int (quantity_normalized [0x2460%N]) = Ok z /\ (0 <= z)%Z).
Proof.
  apply (X17_int_refuses_valid_quantity_iff [0x2460%N]).
  reflexivity.
Defined.

(** ** The handlers on a decimal quantity *)

(** X18. On a complete form whose normalised quantity is made of at
    most 4300 decimal digits, in either phase: "add" appends exactly one
    entry, holding the five names shown, the number [int] reads from the
    text typed and the trimmed user name, keeps the phase and remembers
    the applicant; "finish" appends the same entry, starts the review and
    forgets the applicant. *)
Theorem X18_handlers_on_decimal_quantity (m : master)
    (ss : session_state) (ws : gmap str name) (inp : inputs) :
  form_filled m ss ws inp = true ->
  Forall (fun c => isdecimal_char c = true)
    (quantity_normalized (quantity_input inp)) ->
  (length (quantity_normalized (quantity_input inp))
   <= int_max_str_digits)%nat ->
  exists e,
    make_entry m ss ws inp = Ok e /\
    (0 <= Entry.quantity e)%Z /\
    py_int (quantity_input inp) = Ok (Entry.quantity e) /\
    Entry.applicant e = selected_applicant m ss ws /\
    Entry.location e = selected_location m ss ws /\
    Entry.pattern e = selected_pattern m ss ws /\
    Entry.uniform e = selected_uniform m ss ws /\
    Entry.size e = selected_size m ss ws /\
    Entry.user_name e = str_strip (user_name_input inp) /\
    (add_entry inp = true ->
     script m ss ws inp
     = Ok (Rerun {| entries := entries ss ++ [e];
                    show_success := show_success ss;
                    current_applicant := Some (selected_applicant m ss ws);
                    reset_trigger := (reset_trigger ss + 1)%N |})) /\
    (add_entry inp = false -> finish_entry inp = true ->
     script m ss ws inp
     = Ok (Rerun {| entries := entries ss ++ [e];
                    show_success := true;
                    current_applicant := None;
                    reset_trigger := (reset_trigger ss + 1)%N |})).
Proof.
  intros Hf Hd Hlen.
  assert (Hne : quantity_normalized (quantity_input inp) <> []).
  { apply form_filled_spec in Hf as (_ & _ & _ & Hq).
    apply is_quantity_valid_spec in Hq. tauto. }
  destruct (py_int_decimal_ok _ Hne Hd Hlen) as (z & Hz & Hz0).
  assert (He : make_entry m ss ws inp
               = Ok {| Entry.applicant_id :=
                         get_selected_id (applicants m) Applicant.ap_id
                           Applicant.ap_name
                           (Some (selected_applicant m ss ws));
                       Entry.applicant := selected_applicant m ss ws;
                       Entry.location_id :=
                         get_selected_id (locations m) Location.location_id
                           Location.location_name
                           (Some (selected_location m ss ws));
                       Entry.location := selected_location m ss ws;
                       Entry.pattern_id :=
                         get_selected_id (patterns m) Pattern.pattern_id
                           Pattern.pattern_name
                           (Some (selected_pattern m ss ws));
                       Entry.pattern := selected_pattern m ss ws;
                       Entry.uniform_id :=
                         get_selected_id (uniform_filtered m ss ws)
                           Uniform.uniform_id Uniform.uniform_name
                           (Some (selected_uniform m ss ws));
                       Entry.uniform := selected_uniform m ss ws;
                       Entry.size_id :=
                         get_selected_id (size_filtered m ss ws)
                           Size.size_id Size.size_name
                           (Some (selected_size m ss ws));
                       Entry.size := selected_size m ss ws;
                       Entry.quantity := z;
                       Entry.user_name :=
                         str_strip (user_name_input inp) |}).
  { unfold make_entry. rewrite Hz. reflexivity. }
  eexists. split; [exact He |]. simpl.
  split; [exact Hz0 |].
  split; [rewrite <- py_int_normalized; exact Hz |].
  repeat (split; [reflexivity |]).
  split.
  - intros Ha. unfold script, add_entry_handler.
    rewrite Ha, Hf, He. reflexivity.
  - intros Ha Hfin. unfold script, finish_entry_handler.
    rewrite Ha, Hfin, Hf, He. reflexivity.
Qed.

Lemma X18_handlers_on_decimal_quantity_witness :
  let m := sample_master in
  let ss := initial_session in
  let ws := sample_widgets in
  let inp := click_finish [0xFF12%N] (ascii_str "Suzuki") in
  exists e,
    make_entry m ss ws inp = Ok e /\
    (0 <= Entry.quantity e)%Z /\
    py_int (quantity_input inp) = Ok (Entry.quantity e) /\
    Entry.applicant e = selected_applicant m ss ws /\
    Entry.location e = selected_location m ss ws /\
    Entry.pattern e = selected_pattern m ss ws /\
    Entry.uniform e = selected_uniform m ss ws /\
    Entry.size e = selected_size m ss ws /\
    Entry.user_name e = str_strip (user_name_input inp) /\
    (add_entry inp = true ->
     script m ss ws inp
     = Ok (Rerun {| entries := entries ss ++ [e];
                    show_success := show_success ss;
                    current_applicant := Some (selected_applicant m ss ws);
                    reset_trigger := (reset_trigger ss + 1)%N |})) /\
    (add_entry inp = false -> finish_entry inp = true ->
     script m ss ws inp
     = Ok (Rerun {| entries := entries ss ++ [e];
                    show_success := true;
                    current_applicant := None;
                    reset_trigger := (reset_trigger ss + 1)%N |})).
Proof.
  apply (X18_handlers_on_decimal_quantity sample_master initial_session
           sample_widgets (click_finish [0xFF12%N] (ascii_str "Suzuki"))).
  - vm_compute. reflexivity.
  - repeat constructor.
  - vm_compute. lia.
Defined.


(** ** The text view *)

Lemma str_join_snoc (sep : str) (l : list str) (x : str) :
  str_join sep (l ++ [x])
  = match l with
    | [] => x
    | _ => str_join sep l ++ sep ++ x
    end.
Proof.
  induction l as [|a l IH]; [reflexivity |].
  destruct l as [|b l]; [reflexivity |].
  change (str_join sep ((a :: b :: l) ++ [x]))
    with (a ++ sep ++ str_join sep ((b :: l) ++ [x])).
  rewrite IH.
  change (str_join sep (a :: b :: l))
    with (a ++ sep ++ str_join sep (b :: l)).
  rewrite <- !app_assoc. reflexivity.
Qed.

(** X19. The text view has one line per entry, in entry order, the line
    of the entry at position [i] (from 0) being numbered [i+1].
    Appending an entry appends its line and changes nothing before it:
    the text area grows by a line feed (when it was not empty) and the
    new line. *)
Theorem X19_text_view_append (rows : list Entry.t) (row : Entry.t) :
  length (text_output rows) = length rows /\
  (forall i r, rows !! i = Some r ->
               text_output rows !! i = Some (text_line i r)) /\
  text_output (rows ++ [row])
  = text_output rows ++ [text_line (length rows) row] /\
  text_area_value (rows ++ [row])
  = match rows with
    | [] => text_line 0 row
    | _ => text_area_value rows ++ [10%N] ++ text_line (length rows) row
    end.
Proof.
  assert (Happ : text_output (rows ++ [row])
                 = text_output rows ++ [text_line (length rows) row]).
  { unfold text_output. rewrite imap_app. simpl.
    rewrite Nat.add_0_r. reflexivity. }
  split; [apply length_imap |].
  split.
  { intros i r Hi. unfold text_output.
    rewrite list_lookup_imap, Hi. reflexivity. }
  split; [exact Happ |].
  unfold text_area_value. rewrite Happ, str_join_snoc.
  destruct rows as [|r0 rows]; reflexivity.
Qed.

(** ** The quantity as it is printed *)

Lemma uint_str_ascii_digits (d : Decimal.uint) :
  Forall (fun c => (48 <= c <= 57)%N) (uint_str d).
Proof.
  induction d; simpl; constructor; try assumption; lia.
Qed.

Lemma ascii_digit_is_decimal (s : str) :
  Forall (fun c => (48 <= c <= 57)%N) s ->
  Forall (fun c => isdecimal_char c = true) s.
Proof.
  intros H. eapply Forall_impl; [exact H |].
  intros c. apply isdecimal_char_ascii_digit.
Qed.

Lemma ascii_digits_read_as_they_are (s : str) :
  Forall (fun c => (48 <= c <= 57)%N) s ->
  map (fun c => (to_ascii_decimal_and_space c - 48)%N) s
  = map (fun c => (c - 48)%N) s.
Proof.
  induction 1 as [|c s Hc Hs IH]; [reflexivity |]. simpl.
  rewrite IH. f_equal. unfold to_ascii_decimal_and_space.
  replace (c <? 128)%N with true; [reflexivity |].
  symmetry. apply N.ltb_lt. lia.
Qed.

Lemma uint_value_acc (d : Decimal.uint) (acc : positive) :
  fold_left (fun a k => (10 * a + Z.of_N k)%Z)
    (map (fun c => (c - 48)%N) (uint_str d)) (Z.pos acc)
  = Z.pos (Pos.of_uint_acc d acc).
Proof.
  revert acc. induction d as [|d IH|d IH|d IH|d IH|d IH|d IH|d IH|d IH|d IH|d IH];
    intros acc; simpl; [reflexivity | ..];
    rewrite <- IH; f_equal; lia.
Qed.

Lemma uint_value (d : Decimal.uint) :
  digits_value (map (fun c => (c - 48)%N) (uint_str d))
  = Z.of_N (Pos.of_uint d).
Proof.
  unfold digits_value.
  induction d as [|d IH|d IH|d IH|d IH|d IH|d IH|d IH|d IH|d IH|d IH];
    simpl; [reflexivity | exact IH | ..];
    rewrite <- uint_value_acc; reflexivity.
Qed.

Lemma py_int_uint_str (d : Decimal.uint) :
  d <> Decimal.Nil ->
  (length (uint_str d) <= int_max_str_digits)%nat ->
  py_int (uint_str d) = Ok (Z.of_N (Pos.of_uint d)).
Proof.
  intros Hd Hlen.
  assert (Hne : uint_str d <> []) by (destruct d; [congruence | ..]; discriminate).
  pose proof (uint_str_ascii_digits d) as Hdig.
  rewrite (py_int_decimal_eq _ Hne (ascii_digit_is_decimal _ Hdig)).
  replace (int_max_str_digits <? length (uint_str d))%nat with false
    by (symmetry; apply Nat.ltb_ge; exact Hlen).
  rewrite (ascii_digits_read_as_they_are _ Hdig), uint_value.
  reflexivity.
Qed.

Lemma py_str_int_nonneg (z : Z) :
  (0 <= z)%Z ->
  exists d, py_str_int z = uint_str d /\ d <> Decimal.Nil /\
            Z.of_N (Pos.of_uint d) = z.
Proof.
  intros Hz. destruct z as [|p|p]; [| | lia].
  - exists (Decimal.D0 Decimal.Nil). repeat split. discriminate.
  - exists (Pos.to_uint p). unfold py_str_int. simpl.
    split; [reflexivity |]. split.
    + apply DecimalPos.Unsigned.to_uint_nonnil.
    + rewrite DecimalPos.Unsigned.of_to. reflexivity.
Qed.

Lemma quantity_printed_reads_back (z : Z) :
  (0 <= z)%Z ->
  py_str_int z <> [] /\
  Forall (fun c => (48 <= c <= 57)%N) (py_str_int z) /\
  ((length (py_str_int z) <= int_max_str_digits)%nat ->
   py_int (py_str_int z) = Ok z).
Proof.
  intros Hz. destruct (py_str_int_nonneg z Hz) as (d & -> & Hd & Hv).
  split; [destruct d; [congruence | ..]; discriminate |].
  split; [apply uint_str_ascii_digits |].
  intros Hlen. rewrite (py_int_uint_str d Hd Hlen), Hv. reflexivity.
Qed.

(** X20. The quantity of every entry of every reachable session is
    printed, in the text view, as a non-empty string of ASCII digits
    without a sign, and as long as that string has at most 4300 digits
    [int] reads it back as the quantity. *)
Theorem X20_quantity_printed_reads_back (m : master)
    (ss : session_state) :
  reachable m ss ->
  Forall (fun e =>
            py_str_int (Entry.quantity e) <> [] /\
            Forall (fun c => (48 <= c <= 57)%N)
              (py_str_int (Entry.quantity e)) /\
            ((length (py_str_int (Entry.quantity e))
              <= int_max_str_digits)%nat ->
             py_int (py_str_int (Entry.quantity e))
             = Ok (Entry.quantity e)))
    (entries ss).
Proof.
  apply entries_invariant. intros ss0 ws inp e Hf He.
  apply quantity_printed_reads_back.
  exact (make_entry_quantity_nonneg m ss0 ws inp e Hf He).
Qed.

Lemma X20_quantity_printed_reads_back_witness :
  Forall (fun e =>
            py_str_int (Entry.quantity e) <> [] /\
            Forall (fun c => (48 <= c <= 57)%N)
              (py_str_int (Entry.quantity e)) /\
            ((length (py_str_int (Entry.quantity e))
              <= int_max_str_digits)%nat ->
             py_int (py_str_int (Entry.quantity e))
             = Ok (Entry.quantity e)))
    (entries sample_finished).
Proof.
  apply (X20_quantity_printed_reads_back sample_master sample_finished).
  exact sample_finished_reachable.
Defined.

Example text_area_value_sample :
  text_area_value (entries sample_finished)
  = (ascii_str "[1] " ++ col_applicant ++ ascii_str ":Tanaka / "
     ++ col_location ++ ascii_str ":HQ / "
     ++ col_pattern ++ ascii_str ":Summer / "
     ++ col_uniform ++ ascii_str ":Shirt / "
     ++ col_size ++ ascii_str ":M / "
     ++ col_quantity ++ ascii_str ":2 / "
     ++ col_user_name ++ ascii_str ":Suzuki")%list.
Proof. reflexivity. Qed.

(** A size without a name is printed as ["nan"]. *)
Example text_area_value_nameless_size :
  text_area_value (entries sample_added_nameless_size)
  = (ascii_str "[1] " ++ col_applicant ++ ascii_str ":Tanaka / "
     ++ col_location ++ ascii_str ":HQ / "
     ++ col_pattern ++ ascii_str ":Work / "
     ++ col_uniform ++ ascii_str ":Coverall / "
     ++ col_size ++ ascii_str ":nan / "
     ++ col_quantity ++ ascii_str ":1 / "
     ++ col_user_name ++ ascii_str ":Suzuki")%list.
Proof. reflexivity. Qed.
